(** * Diagnosis-record service: record store and prediction client

    A shallow embedding of the two components of the service,
    [DiagnosisRepository] (file-backed CRUD over a JSON array) and
    [PredictionClient] (HTTP wrapper around the prediction backend),
    followed by the properties the specification states about them.

    JavaScript objects are finite maps from property names to values
    ([gmap string json]); arrays are lists.  Statements that can throw
    run in a state-and-exception monad whose state is the part of the
    outside world the component touches: the file system and the clock
    for the repository, the outbound HTTP traffic for the client. *)

From Stdlib Require Import ZArith String Ascii List Lia.
From stdpp Require Import base option list gmap strings pretty.

Set Warnings "-register-all".
Local Open Scope Z_scope.

(** ** JavaScript values *)

Module Js.

(** Values of JSON documents: what [JSON.parse] returns and what
    [express.json()] hands to the routes.  Numbers are the integral ones,
    which is what [Date.now()] and [parseInt] produce: [JNum z] is the
    number whose value is [z], and the numbers of JavaScript are those
    whose [z] is a double (a numeral in a file is read as the double
    nearest to it).  Strings are held in UTF-8, a lone surrogate as the
    three bytes of its code. *)
Inductive json : Type :=
  | JNull
  | JBool (b : bool)
  | JNum (z : Z)
  | JStr (s : string)
  | JArr (elems : list json)
  | JObj (props : gmap string json).

(** Values a caller can pass or a property read can yield: JSON values
    and the two primitives JSON cannot carry.  Functions, symbols and
    BigInts are left out. *)
Inductive value : Type :=
  | Undefined
  | NotANumber
  | Json (j : json).

(** Result of [parseInt]: NaN, an integral double, or an infinity. *)
Inductive number : Type :=
  | NaN
  | Int (z : Z)
  | Infinity (negative : bool).

(** Thrown objects, by constructor name and [message]. *)
Record error : Type := mkError { name : string; message : string }.

Definition Error (msg : string) : error := mkError "Error" msg.
Definition TypeError (msg : string) : error := mkError "TypeError" msg.
Definition SyntaxError (msg : string) : error := mkError "SyntaxError" msg.

(** [typeof v] *)
Definition typeof (v : value) : string :=
  match v with
  | Undefined => "undefined"
  | NotANumber => "number"
  | Json JNull => "object"
  | Json (JBool _) => "boolean"
  | Json (JNum _) => "number"
  | Json (JStr _) => "string"
  | Json (JArr _) => "object"
  | Json (JObj _) => "object"
  end.

(** [ToBoolean]: the falsy values are undefined, NaN, null, false, 0 and
    the empty string. *)
Definition truthy (v : value) : bool :=
  match v with
  | Undefined | NotANumber => false
  | Json JNull => false
  | Json (JBool b) => b
  | Json (JNum z) => negb (z =? 0)
  | Json (JStr s) => negb (String.eqb s "")
  | Json (JArr _) | Json (JObj _) => true
  end.

(** [Array.isArray(data) ? data : []] *)
Definition array_or_empty (data : json) : list json :=
  match data with
  | JArr elems => elems
  | _ => []
  end.

(** *** Doubles *)

(** The double nearest to an integer, ties going to the even mantissa:
    integers below [2^53] are doubles; above, the 53 leading bits are
    kept and the rest rounded; what rounds to [2^1024] is an infinity. *)
Definition to_double (z : Z) : number :=
  let a := Z.abs z in
  if a <? 9007199254740992 then Int z
  else
    let e := Z.log2 a - 52 in
    let q := Z.shiftr a e in
    let r := a - Z.shiftl q e in
    let half := Z.shiftl 1 (e - 1) in
    let q' := if (half <? r) || ((r =? half) && Z.odd q) then q + 1 else q in
    let m := Z.shiftl q' e in
    if 2 ^ 1024 <=? m then Infinity (z <? 0) else Int (Z.sgn z * m).

Definition is_double (v : Z) : bool :=
  match to_double v with
  | Int m => m =? v
  | _ => false
  end.

(** *** [Number::toString] for an integral double *)

(** With [k] significant digits: the multiples of the power of ten next
    to [v], below and above, when one of them is read back as [v]; the
    nearer one when both are. *)
Definition with_digits (v : Z) (k : nat) : option Z :=
  let p := Z.of_nat (String.length (pretty v)) - Z.of_nat k in
  if p <=? 0 then Some v
  else
    let u := 10 ^ p in
    let lo := (v / u) * u in
    let hi := lo + u in
    let reads m := match to_double m with Int x => x =? v | _ => false end in
    if reads lo && ((v - lo <=? hi - v) || negb (reads hi)) then Some lo
    else if reads hi then Some hi
    else None.

(** The decimal with the fewest significant digits that is read back as
    [v], looked for from [k] digits up to [k + fuel - 1]. *)
Fixpoint shortest_from (v : Z) (k : nat) (fuel : nat) : Z :=
  match fuel with
  | O => v
  | S fuel' =>
      match with_digits v k with
      | Some m => m
      | None => shortest_from v (S k) fuel'
      end
  end.

Definition shortest (v : Z) : Z := shortest_from v 1 17.

Fixpoint drop_trailing_zeros (rev_digits : string) : string :=
  match rev_digits with
  | String "0" rest => drop_trailing_zeros rest
  | _ => rev_digits
  end.

(** The exponent form [d.ddde+n], used from [1e21] on. *)
Definition exponent_form (m : Z) : string :=
  let digits := pretty m in
  let significant := String.rev (drop_trailing_zeros (String.rev digits)) in
  let exponent := Z.of_nat (String.length digits) - 1 in
  match significant with
  | String d EmptyString => String d ("e+" +:+ pretty exponent)
  | String d rest => String d ("." +:+ rest +:+ "e+" +:+ pretty exponent)
  | EmptyString => digits
  end.

(** Below [2^53] every integer is its own shortest decimal. *)
Definition Number_toString (z : Z) : string :=
  if Z.abs z <? 9007199254740992 then pretty z
  else
    let m := shortest (Z.abs z) in
    let magnitude := if m <? 10 ^ 21 then pretty m else exponent_form m in
    if z <? 0 then "-" +:+ magnitude else magnitude.

(** [ToString]; an array joins its elements with commas, null elements
    printing as the empty string. *)
Fixpoint ToString (j : json) : string :=
  match j with
  | JNull => "null"
  | JBool true => "true"
  | JBool false => "false"
  | JNum z => Number_toString z
  | JStr s => s
  | JArr elems =>
      String.concat ","
        (map (fun e => match e with JNull => "" | _ => ToString e end) elems)
  | JObj _ => "[object Object]"
  end.

(** *** [parseInt(x)] with no radix argument *)

(** White space of one byte: TAB, LF, VT, FF, CR and the space. *)
Definition is_whitespace (c : ascii) : bool :=
  let n := Z.of_nat (nat_of_ascii c) in
  ((9 <=? n) && (n <=? 13)) || (n =? 32).

(** A byte that can start a white space of more than one byte. *)
Definition starts_wide_whitespace (c : ascii) : bool :=
  let n := Z.of_nat (nat_of_ascii c) in
  (n =? 194) || (n =? 225) || (n =? 226) || (n =? 227) || (n =? 239).

(** White space of two bytes: U+00A0. *)
Definition is_whitespace2 (c0 c1 : ascii) : bool :=
  (Z.of_nat (nat_of_ascii c0) =? 194) && (Z.of_nat (nat_of_ascii c1) =? 160).

(** White space of three bytes: U+1680, U+2000 to U+200A, U+2028,
    U+2029, U+202F, U+205F, U+3000 and U+FEFF. *)
Definition is_whitespace3 (c0 c1 c2 : ascii) : bool :=
  let n0 := Z.of_nat (nat_of_ascii c0) in
  let n1 := Z.of_nat (nat_of_ascii c1) in
  let n2 := Z.of_nat (nat_of_ascii c2) in
  ((n0 =? 225) && (n1 =? 154) && (n2 =? 128))
  || ((n0 =? 226) && (n1 =? 128)
      && (((128 <=? n2) && (n2 <=? 138)) || (n2 =? 168) || (n2 =? 169)
          || (n2 =? 175)))
  || ((n0 =? 226) && (n1 =? 129) && (n2 =? 159))
  || ((n0 =? 227) && (n1 =? 128) && (n2 =? 128))
  || ((n0 =? 239) && (n1 =? 187) && (n2 =? 191)).

Fixpoint trim_start (s : string) : string :=
  match s with
  | String c0 r0 =>
      if is_whitespace c0 then trim_start r0
      else if starts_wide_whitespace c0 then
        match r0 with
        | String c1 r1 =>
            if is_whitespace2 c0 c1 then trim_start r1
            else
              match r1 with
              | String c2 r2 =>
                  if is_whitespace3 c0 c1 c2 then trim_start r2 else s
              | EmptyString => s
              end
        | EmptyString => s
        end
      else s
  | EmptyString => s
  end.

Definition digit_value (c : ascii) : option Z :=
  let n := Z.of_nat (nat_of_ascii c) in
  if (48 <=? n) && (n <=? 57) then Some (n - 48)
  else if (97 <=? n) && (n <=? 122) then Some (n - 87)
  else if (65 <=? n) && (n <=? 90) then Some (n - 55)
  else None.

(** Value of the longest prefix of [s] made of digits below [radix];
    [acc] is [None] until a first digit has been read. *)
Fixpoint digits_prefix (radix : Z) (s : string) (acc : option Z) : option Z :=
  match s with
  | String c rest =>
      match digit_value c with
      | Some d =>
          if d <? radix
          then digits_prefix radix rest (Some (radix * default 0 acc + d))
          else acc
      | None => acc
      end
  | EmptyString => acc
  end.

(** The integer read is returned as the double nearest to it. *)
Definition parseInt (x : json) : number :=
  let s := trim_start (ToString x) in
  let '(sign, s) :=
    match s with
    | String "-" rest => (-1, rest)
    | String "+" rest => (1, rest)
    | _ => (1, s)
    end in
  let '(radix, s) :=
    match s with
    | String "0" (String "x" rest) => (16, rest)
    | String "0" (String "X" rest) => (16, rest)
    | _ => (10, s)
    end in
  match digits_prefix radix s None with
  | Some n => to_double (sign * n)
  | None => NaN
  end.

(** [v === key] for a [key] that [parseInt] returned: true only for a
    number with the same value; NaN equals nothing. *)
Definition strict_equals (v : value) (key : number) : bool :=
  match v, key with
  | Json (JNum a), Int b => a =? b
  | _, _ => false
  end.

(** *** Object spread *)

(** The three bytes that hold the 16-bit unit [u]. *)
Definition unit_bytes (u : Z) : string :=
  let byte n := ascii_of_nat (Z.to_nat n) in
  String (byte (224 + u / 4096))
    (String (byte (128 + (u / 64) mod 64))
       (String (byte (128 + u mod 64)) EmptyString)).

(** The 16-bit units of a string, which are what its indices count: a
    character of one, two or three bytes is one unit, a character of four
    bytes is a pair of surrogates. *)
Fixpoint utf16_units (s : string) : list string :=
  match s with
  | EmptyString => []
  | String b0 r0 =>
      let n0 := Z.of_nat (nat_of_ascii b0) in
      if n0 <? 192 then String b0 EmptyString :: utf16_units r0
      else
        match r0 with
        | EmptyString => [String b0 EmptyString]
        | String b1 r1 =>
            if n0 <? 224
            then String b0 (String b1 EmptyString) :: utf16_units r1
            else
              match r1 with
              | EmptyString => [String b0 (String b1 EmptyString)]
              | String b2 r2 =>
                  let three := String b0 (String b1 (String b2 EmptyString)) in
                  if n0 <? 240 then three :: utf16_units r2
                  else
                    match r2 with
                    | EmptyString => [three]
                    | String b3 r3 =>
                        let n1 := Z.of_nat (nat_of_ascii b1) in
                        let n2 := Z.of_nat (nat_of_ascii b2) in
                        let n3 := Z.of_nat (nat_of_ascii b3) in
                        let code := (n0 mod 8) * 262144 + (n1 mod 64) * 4096
                                    + (n2 mod 64) * 64 + n3 mod 64 in
                        let offset := code - 65536 in
                        unit_bytes (55296 + offset / 1024)
                          :: unit_bytes (56320 + offset mod 1024)
                          :: utf16_units r3
                    end
              end
        end
  end.

(** Own enumerable properties, as [{...src}] copies them: those of an
    object, the indexed elements of an array, the indexed units of a
    string, none for the other primitives. *)
Definition own_props (src : json) : gmap string json :=
  match src with
  | JObj props => props
  | JArr elems => list_to_map (imap (fun i e => (pretty i, e)) elems)
  | JStr s => list_to_map (imap (fun i u => (pretty i, JStr u)) (utf16_units s))
  | JNull | JBool _ | JNum _ => ∅
  end.

(** [{ ...target, ...src }]: properties are copied in order, so a key of
    [src] replaces the same key of [target]. *)
Definition spread (target : gmap string json) (src : json) : gmap string json :=
  own_props src ∪ target.

End Js.

Import Js.

(** ** Statements that read and write state and may throw *)

Inductive completion (A : Type) : Type :=
  | Normal (a : A)
  | Throw (e : error).
Arguments Normal {A} a.
Arguments Throw {A} e.

Definition M (S A : Type) : Type := S -> completion A * S.

Definition ret {S A} (a : A) : M S A := fun s => (Normal a, s).

Definition throw {S A} (e : error) : M S A := fun s => (Throw e, s).

Definition bind {S A B} (m : M S A) (k : A -> M S B) : M S B :=
  fun s =>
    match m s with
    | (Normal a, s') => k a s'
    | (Throw e, s') => (Throw e, s')
    end.

(** [try { body } catch (err) { handler }] *)
Definition try_catch {S A} (body : M S A) (handler : error -> M S A) : M S A :=
  fun s =>
    match body s with
    | (Normal a, s') => (Normal a, s')
    | (Throw e, s') => handler e s'
    end.

Notation "'let!' x := m 'in' k" := (bind m (fun x => k))
  (at level 10, x name, m at level 100, k at level 200).
Notation "m ;; k" := (bind m (fun _ => k))
  (at level 100, k at level 200, right associativity).

(** [list.map(f)] and [list.filter(f)] with a callback that may throw:
    elements are visited left to right and the first exception aborts. *)
Fixpoint Array_map {S A B} (f : A -> M S B) (l : list A) : M S (list B) :=
  match l with
  | [] => ret []
  | d :: rest =>
      let! y := f d in
      let! ys := Array_map f rest in
      ret (y :: ys)
  end.

Fixpoint Array_filter {S A} (f : A -> M S bool) (l : list A) : M S (list A) :=
  match l with
  | [] => ret []
  | d :: rest =>
      let! keep := f d in
      let! ys := Array_filter f rest in
      ret (if keep then d :: ys else ys)
  end.

(** The [id] an element shows when read: its own property for an object,
    undefined when the object has none and for arrays, strings, numbers
    and booleans, which have no property of that name. *)
Definition own_id (d : json) : value :=
  match d with
  | JObj props =>
      match props !! "id" with
      | Some v => Json v
      | None => Undefined
      end
  | _ => Undefined
  end.

(** [d.id]: reading a property of null throws. *)
Definition get_id {S} (d : json) : M S value :=
  match d with
  | JNull => throw (TypeError "Cannot read properties of null (reading 'id')")
  | _ => ret (own_id d)
  end.

(** ** The file system, the clock and [JSON] *)

(** The text of a file, by what [JSON.parse] makes of it: either it is
    rejected, or it denotes a JSON value.  [JSON.stringify] of a JSON
    value is a text denoting that value. *)
Inductive text : Type :=
  | Malformed (raw : string)
  | Document (j : json).

(** A directory entry: a file with its text, which the process can open
    for reading ([File]) or cannot ([Unreadable]). *)
Inductive node : Type :=
  | Unreadable (content : text)
  | File (content : text).

Definition node_text (n : node) : text :=
  match n with
  | Unreadable content => content
  | File content => content
  end.

(** The world of the repository.  [journal] lists the calls to
    [fs.writeFileSync], oldest first.  Writes are taken to succeed; they
    replace the text and leave the permissions as they are, a file that
    did not exist being created readable. *)
Record world : Type := mkWorld {
  files : gmap string node;
  clock : Z;
  journal : list (string * text)
}.

Definition fs_existsSync (path : string) : M world bool :=
  fun w => (Normal (bool_decide (is_Some (files w !! path))), w).

Definition fs_readFileSync (path : string) : M world text :=
  fun w =>
    match files w !! path with
    | Some (File content) => (Normal content, w)
    | Some (Unreadable _) =>
        (Throw (Error ("EACCES: permission denied, open '" +:+ path +:+ "'")), w)
    | None =>
        (Throw (Error ("ENOENT: no such file or directory, open '"
                         +:+ path +:+ "'")), w)
    end.

Definition fs_writeFileSync (path : string) (content : text) : M world unit :=
  fun w =>
    let written :=
      match files w !! path with
      | Some (Unreadable _) => Unreadable content
      | _ => File content
      end in
    (Normal tt,
     mkWorld (<[path := written]> (files w)) (clock w)
             (journal w ++ [(path, content)])).

Definition JSON_parse {S} (txt : text) : M S json :=
  match txt with
  | Document j => ret j
  | Malformed raw => throw (SyntaxError "Unexpected token in JSON")
  end.

Definition JSON_stringify (j : json) : text := Document j.

Definition Date_now : M world Z := fun w => (Normal (clock w), w).

(** ** [DiagnosisRepository] *)

Module DiagnosisRepository.

Record t : Type := mk { filePath : string }.

(** [_ensureStorage]: the file is created with the text ['[]'] when it
    does not exist (directories are not modelled: paths are flat). *)
Definition _ensureStorage (this : t) : M world unit :=
  let! present := fs_existsSync (filePath this) in
  if negb present
  then fs_writeFileSync (filePath this) (Document (JArr []))
  else ret tt.

Definition constructor (path : string) : M world t :=
  let this := mk path in
  _ensureStorage this ;;
  ret this.

(** [_readAll]: the diagnostic of the catch block goes to the console,
    which nothing reads back; it is not part of the state. *)
Definition _readAll (this : t) : M world (list json) :=
  try_catch
    (let! txt := fs_readFileSync (filePath this) in
     let! data := JSON_parse txt in
     ret (array_or_empty data))
    (fun err => ret []).

Definition _writeAll (this : t) (list : list json) : M world unit :=
  fs_writeFileSync (filePath this) (JSON_stringify (JArr list)).

Definition list (this : t) : M world (list json) :=
  _readAll this.

Definition create (this : t) (doc : json) : M world json :=
  let! list := _readAll this in
  let! now := Date_now in
  let novo := JObj (spread {[ "id" := JNum now ]} doc) in
  let list := list ++ [novo] in
  _writeAll this list ;;
  ret novo.

Definition update (this : t) (id : json) (patch : json) : M world bool :=
  let! list := _readAll this in
  let key := parseInt id in
  let! updated :=
    Array_map
      (fun d =>
         let! d_id := get_id d in
         ret (if strict_equals d_id key
              then JObj (spread (spread ∅ d) patch)
              else d))
      list in
  _writeAll this updated ;;
  ret true.

Definition delete (this : t) (id : json) : M world bool :=
  let! list := _readAll this in
  let key := parseInt id in
  let! filtered :=
    Array_filter
      (fun d =>
         let! d_id := get_id d in
         ret (negb (strict_equals d_id key)))
      list in
  _writeAll this filtered ;;
  ret true.

End DiagnosisRepository.

(** ** Outbound HTTP *)

(** What [axios.post(url, body, { timeout })] is called with. *)
Record request : Type := mkRequest {
  url : string;
  body : value;
  timeout : Z
}.

(** The resolved value of [axios.post], of which only [data] is read. *)
Record response : Type := mkResponse { data : json }.

(** How the remote end answers a request: a response, or a rejection
    (network failure, timeout, non-success status) carrying an error. *)
Inductive reply : Type :=
  | Resolves (res : response)
  | Rejects (err : error).

(** The world of the client: the remote end and the requests issued so
    far, oldest first. *)
Record net : Type := mkNet {
  remote : request -> reply;
  sent : list request
}.

Definition axios_post (url : string) (body : value) (timeout : Z)
  : M net response :=
  fun w =>
    let req := mkRequest url body timeout in
    let w' := mkNet (remote w) (sent w ++ [req]) in
    match remote w req with
    | Resolves res => (Normal res, w')
    | Rejects err => (Throw err, w')
    end.

(** ** Strings *)

(** [s.slice(start, end)], negative indices counting from the end. *)
Definition slice (s : string) (start finish : Z) : string :=
  let len := Z.of_nat (String.length s) in
  let clamp i := if i <? 0 then Z.max (len + i) 0 else Z.min i len in
  let from := clamp start in
  let to := clamp finish in
  substring (Z.to_nat from) (Z.to_nat (Z.max (to - from) 0)) s.

(** [s.endsWith(suffix)] *)
Definition endsWith (s suffix : string) : bool :=
  let n := String.length s in
  let k := String.length suffix in
  (k <=? n)%nat && String.eqb (substring (n - k) k s) suffix.

(** ** [PredictionClient] *)

(** The methods are [async]: the completion of the statement is the way
    the returned promise settles, [Normal] for a fulfilled promise and
    [Throw] for a rejected one. *)
Module PredictionClient.

Record t : Type := mk { baseUrl : string }.

Definition constructor (baseUrl : string) : t :=
  mk (if endsWith baseUrl "/" then slice baseUrl 0 (-1) else baseUrl).

Definition diagnose (this : t) (payload : value) : M net json :=
  if negb (truthy payload) || negb (String.eqb (typeof payload) "object")
  then throw (Error "Payload inválido para predição.")
  else
    try_catch
      (let! res := axios_post (baseUrl this +:+ "/predict") payload 8000 in
       ret (data res))
      (fun err =>
         throw (Error ("Falha ao chamar serviço de predição: " +:+ message err))).

Definition retrain (this : t) : M net json :=
  try_catch
    (let! res := axios_post (baseUrl this +:+ "/train") (Json (JObj ∅)) 20000 in
     ret (data res))
    (fun err => throw (Error ("Falha ao re-treinar modelo: " +:+ message err))).

End PredictionClient.

(** ** Observations and call sequences *)

(** The world a statement leaves behind, whether it returns or throws. *)
Definition exec {S A} (m : M S A) (s : S) : S := snd (m s).

(** The persisted collection: what [list()] returns in world [w]. *)
Definition persisted (this : DiagnosisRepository.t) (w : world) : list json :=
  match fst (DiagnosisRepository.list this w) with
  | Normal records => records
  | Throw _ => []
  end.

(** The calls a client of the repository makes, and the passing of time
    between them. *)
Inductive call : Type :=
  | Create (doc : json)
  | Update (id patch : json)
  | Delete (id : json)
  | Wait (ms : nat).

Definition step (this : DiagnosisRepository.t) (w : world) (c : call) : world :=
  match c with
  | Create doc => exec (DiagnosisRepository.create this doc) w
  | Update id patch => exec (DiagnosisRepository.update this id patch) w
  | Delete id => exec (DiagnosisRepository.delete this id) w
  | Wait ms => mkWorld (files w) (clock w + Z.of_nat ms) (journal w)
  end.

Definition steps (this : DiagnosisRepository.t) (w : world) (cs : list call)
  : world :=
  fold_left (step this) cs w.

(** The world after [_writeAll(records)]. *)
Definition persist (this : DiagnosisRepository.t) (records : list json)
  (w : world) : world :=
  exec (DiagnosisRepository._writeAll this records) w.

Definition is_null (d : json) : bool :=
  match d with
  | JNull => true
  | _ => false
  end.

(** The error of reading [d.id] on a null element. *)
Definition null_read : error :=
  TypeError "Cannot read properties of null (reading 'id')".

(** What the callback of [update] returns for an element it can read. *)
Definition patched (key : number) (patch : json) (d : json) : json :=
  if strict_equals (own_id d) key
  then JObj (spread (spread ∅ d) patch)
  else d.

(** What the callback of [delete] returns for an element it can read. *)
Definition kept (key : number) (d : json) : bool :=
  negb (strict_equals (own_id d) key).

(** An [id] that is a number. *)
Definition numeric (v : value) : Prop := exists z, v = Json (JNum z).

(** Whether what is written to the file of the repository can be read
    back: the file does not exist yet, or it can be opened for reading. *)
Definition reads_back (this : DiagnosisRepository.t) (w : world) : bool :=
  match files w !! DiagnosisRepository.filePath this with
  | Some (Unreadable _) => false
  | _ => true
  end.

(** A payload that is a mapping: an object that is not an array. *)
Definition mapping (payload : value) : Prop :=
  exists props : gmap string json, payload = Json (JObj props).

(** What the call of an [async] method gives: the call itself does not
    throw; it returns a promise, fulfilled with the value the body
    returns or rejected with what the body throws. *)
Inductive promise (A : Type) : Type :=
  | Fulfilled (a : A)
  | Rejected (e : error).
Arguments Fulfilled {A} a.
Arguments Rejected {A} e.

Definition call_async {S A} (body : M S A) : M S (promise A) :=
  fun s =>
    match body s with
    | (Normal a, s') => (Normal (Fulfilled a), s')
    | (Throw e, s') => (Normal (Rejected e), s')
    end.

(** The error [diagnose] throws for a payload it refuses. *)
Definition invalid_payload : error := Error "Payload inválido para predição.".

(** A world with no file, at a given time. *)
Definition blank (now : Z) : world := mkWorld ∅ now [].

(** ** [AppServer] *)

(** What a route handler reads of the inbound request: the parsed body
    ([req.body]) and the [:id] segment of the path ([req.params.id]). *)
Record http_request : Type := mkHttpRequest {
  req_body : value;
  req_params_id : string
}.

(** What a route handler sends: the status code and the JSON body. *)
Record http_response : Type := mkHttpResponse {
  statusCode : Z;
  sent_body : json
}.

(** [res.json(j)] and [res.status(code).json(j)] *)
Definition res_json (j : json) : http_response := mkHttpResponse 200 j.

Definition res_status_json (code : Z) (j : json) : http_response :=
  mkHttpResponse code j.

(** [req.body || {}] *)
Definition body_or_empty (b : value) : json :=
  match b with
  | Json j => if truthy b then j else JObj ∅
  | Undefined | NotANumber => JObj ∅
  end.

(** [{ error: err.message }] *)
Definition error_body (err : error) : json :=
  JObj {[ "error" := JStr (message err) ]}.

(** [{ ok: true }] *)
Definition ok_body : json := JObj {[ "ok" := JBool true ]}.

(** The two variables read from [process.env]; [None] when unset. *)
Record environment : Type := mkEnvironment {
  PORT : option string;
  PREDICTION_API : option string
}.

Module AppServer.

Record config : Type := mkConfig {
  config_port : number;
  config_predictionBaseUrl : string
}.

Record t : Type := mk {
  port : number;
  predictionBaseUrl : string;
  repo : DiagnosisRepository.t;
  predictionClient : PredictionClient.t
}.

(** [config.port || 3000]: NaN and 0 are falsy. *)
Definition port_or_default (p : number) : number :=
  match p with
  | NaN => Int 3000
  | Int z => if z =? 0 then Int 3000 else Int z
  | Infinity negative => Infinity negative
  end.

(** [config.predictionBaseUrl || 'http://localhost:5000'] *)
Definition url_or_default (u : string) : string :=
  if String.eqb u "" then "http://localhost:5000" else u.

(** The constructor; [dirname] is [__dirname], a directory name without
    a trailing separator, to which [path.join] appends the relative
    path.  Middleware and route registration have no state of their own:
    the handlers are the functions below. *)
Definition constructor (dirname : string) (cfg : config) : M world t :=
  let port := port_or_default (config_port cfg) in
  let predictionBaseUrl := url_or_default (config_predictionBaseUrl cfg) in
  let! repo :=
    DiagnosisRepository.constructor (dirname +:+ "/public/diagnosticos.json") in
  let predictionClient := PredictionClient.constructor predictionBaseUrl in
  ret (mk port predictionBaseUrl repo predictionClient).

(** [POST /diagnose] *)
Definition post_diagnose (this : t) (req : http_request) : M net http_response :=
  try_catch
    (let payload := body_or_empty (req_body req) in
     let! result := PredictionClient.diagnose (predictionClient this) (Json payload) in
     ret (res_json result))
    (fun err => ret (res_status_json 500 (error_body err))).

(** [POST /retrain] *)
Definition post_retrain (this : t) (req : http_request) : M net http_response :=
  try_catch
    (let! info := PredictionClient.retrain (predictionClient this) in
     ret (res_json info))
    (fun err => ret (res_status_json 500 (error_body err))).

(** [GET /diagnosticos] *)
Definition get_diagnosticos (this : t) (req : http_request)
  : M world http_response :=
  let! records := DiagnosisRepository.list (repo this) in
  ret (res_json (JArr records)).

(** [POST /diagnosticos] *)
Definition post_diagnosticos (this : t) (req : http_request)
  : M world http_response :=
  try_catch
    (let! novo :=
       DiagnosisRepository.create (repo this) (body_or_empty (req_body req)) in
     ret (res_json novo))
    (fun err => ret (res_status_json 500 (error_body err))).

(** [PUT /diagnosticos/:id] *)
Definition put_diagnosticos (this : t) (req : http_request)
  : M world http_response :=
  try_catch
    (DiagnosisRepository.update (repo this) (JStr (req_params_id req))
       (body_or_empty (req_body req)) ;;
     ret (res_json ok_body))
    (fun err => ret (res_status_json 500 (error_body err))).

(** [DELETE /diagnosticos/:id] *)
Definition delete_diagnosticos (this : t) (req : http_request)
  : M world http_response :=
  try_catch
    (DiagnosisRepository.delete (repo this) (JStr (req_params_id req)) ;;
     ret (res_json ok_body))
    (fun err => ret (res_status_json 500 (error_body err))).

(** The configuration the module builds from the environment:
    [process.env.PORT ? parseInt(process.env.PORT) : 3000] and
    [process.env.PREDICTION_API || 'http://localhost:5000']. *)
Definition config_of_env (env : environment) : config :=
  mkConfig
    (match PORT env with
     | Some p => if truthy (Json (JStr p)) then parseInt (JStr p) else Int 3000
     | None => Int 3000
     end)
    (match PREDICTION_API env with
     | Some u => if truthy (Json (JStr u)) then u else "http://localhost:5000"
     | None => "http://localhost:5000"
     end).

(** [new AppServer({ ... })] at the end of the module. *)
Definition main (dirname : string) (env : environment) : M world t :=
  constructor dirname (config_of_env env).

End AppServer.

(** ** Decimal numerals *)

(** A string made of decimal digits only. *)
Fixpoint digits_only (s : string) : Prop :=
  match s with
  | EmptyString => True
  | String c rest =>
      (exists m : N, (m < 10)%N /\ c = pretty_N_char m) /\ digits_only rest
  end.

(** The key [update] and [delete] compare with, as a value. *)
Definition has_id (z : Z) (d : json) : bool :=
  strict_equals (own_id d) (Int z).

(** ** Sanity checks of the embedding on concrete inputs *)

Example parseInt_digits : parseInt (JStr "123") = Int 123.
Proof. reflexivity. Qed.

Example parseInt_prefix : parseInt (JStr "  -12abc") = Int (-12).
Proof. reflexivity. Qed.

Example parseInt_hex : parseInt (JStr "0x1f") = Int 31.
Proof. reflexivity. Qed.

Example parseInt_letters : parseInt (JStr "abc") = NaN.
Proof. reflexivity. Qed.

Example parseInt_number : parseInt (JNum 999) = Int 999.
Proof. reflexivity. Qed.

Example parseInt_array : parseInt (JArr [JNum 12; JNum 3]) = Int 12.
Proof. reflexivity. Qed.

Example constructor_strips_slash :
  PredictionClient.baseUrl (PredictionClient.constructor "http://localhost:5000/")
  = "http://localhost:5000".
Proof. reflexivity. Qed.

Example constructor_strips_one_slash :
  PredictionClient.baseUrl (PredictionClient.constructor "http://h//") = "http://h/".
Proof. reflexivity. Qed.

Example constructor_keeps_plain :
  PredictionClient.baseUrl (PredictionClient.constructor "http://localhost:5000")
  = "http://localhost:5000".
Proof. reflexivity. Qed.

Example constructor_creates_file :
  let path := "tests/diagnosticos-test.json" in
  journal (exec (DiagnosisRepository.constructor path) (blank 0))
  = [(path, Document (JArr []))].
Proof. vm_compute. reflexivity. Qed.

Example update_changes_matching_record :
  let this := DiagnosisRepository.mk "tests/diagnosticos-test.json" in
  let w := persist this [JObj {[ "id" := JNum 123; "nome" := JStr "A" ]}] (blank 0) in
  persisted this
    (exec (DiagnosisRepository.update this (JNum 123)
             (JObj {[ "nome" := JStr "Atualizado" ]})) w)
  = [JObj {[ "id" := JNum 123; "nome" := JStr "Atualizado" ]}].
Proof. vm_compute. reflexivity. Qed.

Example delete_removes_matching_record :
  let this := DiagnosisRepository.mk "tests/diagnosticos-test.json" in
  let w := persist this [JObj {[ "id" := JNum 1; "nome" := JStr "A" ]};
                         JObj {[ "id" := JNum 2; "nome" := JStr "B" ]}] (blank 0) in
  persisted this (exec (DiagnosisRepository.delete this (JNum 2)) w)
  = [JObj {[ "id" := JNum 1; "nome" := JStr "A" ]}].
Proof. vm_compute. reflexivity. Qed.

Example update_throws_on_null_element :
  let this := DiagnosisRepository.mk "tests/diagnosticos-test.json" in
  let w := persist this [JNull] (blank 0) in
  DiagnosisRepository.update this (JStr "1") (JObj ∅) w = (Throw null_read, w).
Proof. vm_compute. reflexivity. Qed.

Example diagnose_forwards_object :
  let this := PredictionClient.constructor "http://localhost:5000" in
  let payload := Json (JObj {[ "x" := JNum 10 ]}) in
  let w := mkNet (fun _ => Resolves (mkResponse (JObj {[ "ok" := JBool true ]}))) [] in
  PredictionClient.diagnose this payload w
  = (Normal (JObj {[ "ok" := JBool true ]}),
     mkNet (remote w) [mkRequest "http://localhost:5000/predict" payload 8000]).
Proof. reflexivity. Qed.

Example parseInt_skips_no_break_space :
  parseInt (JStr (String (ascii_of_nat 194) (String (ascii_of_nat 160) "7")))
  = Int 7.
Proof. reflexivity. Qed.

Example parseInt_keeps_zero_width_space :
  parseInt (JStr (String (ascii_of_nat 226)
                    (String (ascii_of_nat 128) (String (ascii_of_nat 139) "12"))))
  = NaN.
Proof. reflexivity. Qed.

Example parseInt_rounds_to_double :
  parseInt (JStr "9007199254740993") = Int 9007199254740992
  /\ parseInt (JStr "9007199254740995") = Int 9007199254740996.
Proof. split; vm_compute; reflexivity. Qed.

Example parseInt_exponent_form : parseInt (JNum (10 ^ 21)) = Int 1.
Proof. vm_compute. reflexivity. Qed.

Example parseInt_overflows : to_double (10 ^ 400) = Infinity false.
Proof. vm_compute. reflexivity. Qed.

Example ToString_large_numbers :
  ToString (JNum (2 ^ 60)) = "1152921504606847000"
  /\ ToString (JNum (2 ^ 70)) = "1.1805916207174113e+21"
  /\ ToString (JNum 99999999999999991611392) = "1e+23".
Proof. repeat split; vm_compute; reflexivity. Qed.

Example own_props_string :
  own_props (JStr "aé") = {[ "0" := JStr "a"; "1" := JStr "é" ]}.
Proof. vm_compute. reflexivity. Qed.

Example create_on_write_only_file :
  let this := DiagnosisRepository.mk "public/diagnosticos.json" in
  let w := mkWorld {[ "public/diagnosticos.json" := Unreadable (Document (JArr [])) ]}
                   1000 [] in
  let w' := exec (DiagnosisRepository.create this (JObj ∅)) w in
  files w' !! "public/diagnosticos.json"
  = Some (Unreadable (Document (JArr [JObj {[ "id" := JNum 1000 ]}])))
  /\ DiagnosisRepository.list this w' = (Normal [], w').
Proof. split; vm_compute; reflexivity. Qed.

Example own_props_array :
  own_props (JArr [JStr "a"; JStr "b"]) = {[ "0" := JStr "a"; "1" := JStr "b" ]}.
Proof. vm_compute. reflexivity. Qed.

(** ** The repository in closed form *)

Section RepositoryFacts.

Variable this : DiagnosisRepository.t.

Lemma readAll_persisted (w : world) :
  DiagnosisRepository._readAll this w = (Normal (persisted this w), w).
Proof.
  unfold persisted, DiagnosisRepository.list, DiagnosisRepository._readAll,
    try_catch, bind, fs_readFileSync.
  destruct (files w !! DiagnosisRepository.filePath this)
    as [[hidden|[raw|j]]|]; reflexivity.
Qed.

Lemma persisted_files (w w' : world) :
  files w = files w' -> persisted this w = persisted this w'.
Proof.
  unfold persisted, DiagnosisRepository.list, DiagnosisRepository._readAll,
    try_catch, bind, fs_readFileSync.
  intros ->.
  destruct (files w' !! DiagnosisRepository.filePath this)
    as [[hidden|[raw|j]]|]; reflexivity.
Qed.

Lemma writeAll_persist (records : list json) (w : world) :
  DiagnosisRepository._writeAll this records w
  = (Normal tt, persist this records w).
Proof. reflexivity. Qed.

Lemma persisted_persist (records : list json) (w : world) :
  persisted this (persist this records w)
  = if reads_back this w then records else [].
Proof.
  unfold persisted, DiagnosisRepository.list, DiagnosisRepository._readAll,
    try_catch, bind, fs_readFileSync, persist, exec,
    DiagnosisRepository._writeAll, fs_writeFileSync, reads_back.
  cbn [snd files fst]. rewrite lookup_insert_eq.
  destruct (files w !! DiagnosisRepository.filePath this) as [[hidden|content]|];
    reflexivity.
Qed.

Lemma persisted_unreadable (w : world) :
  reads_back this w = false -> persisted this w = [].
Proof.
  unfold persisted, DiagnosisRepository.list, DiagnosisRepository._readAll,
    try_catch, bind, fs_readFileSync, reads_back.
  destruct (files w !! DiagnosisRepository.filePath this) as [[hidden|content]|];
    [reflexivity | discriminate | discriminate].
Qed.

(** What [update] and [delete] write is read back as written: on a file
    that cannot be read the collection is empty before and after. *)
Lemma persisted_persist_derived (g : list json -> list json) (w : world) :
  g [] = [] ->
  persisted this (persist this (g (persisted this w)) w) = g (persisted this w).
Proof.
  intros Hg. rewrite persisted_persist.
  destruct (reads_back this w) eqn:Hreads; [reflexivity|].
  rewrite (persisted_unreadable w Hreads), Hg. reflexivity.
Qed.

Lemma persist_persist_files (l : list json) (w : world) :
  files (persist this l (persist this l w)) = files (persist this l w).
Proof.
  unfold persist, exec, DiagnosisRepository._writeAll, fs_writeFileSync.
  cbn [snd files]. rewrite lookup_insert_eq, insert_insert_eq.
  destruct (files w !! DiagnosisRepository.filePath this) as [[hidden|content]|];
    reflexivity.
Qed.

Lemma map_callback (key : number) (patch : json) (l : list json) (w : world) :
  Array_map
    (fun d =>
       let! d_id := get_id d in
       ret (if strict_equals d_id key
            then JObj (spread (spread ∅ d) patch)
            else d))
    l w
  = if existsb is_null l
    then (Throw null_read, w)
    else (Normal (map (patched key patch) l), w).
Proof.
  set (f := fun d : json => _).
  assert (Hf : forall d, f d w
            = if is_null d then (Throw null_read, w)
              else (Normal (patched key patch d), w))
    by (intros []; reflexivity).
  induction l as [|d rest IH]; [reflexivity|].
  cbn [Array_map existsb map]. unfold bind at 1. rewrite Hf.
  destruct (is_null d); cbn [orb]; [reflexivity|].
  unfold bind at 1. rewrite IH.
  destruct (existsb is_null rest); reflexivity.
Qed.

Lemma filter_callback (key : number) (l : list json) (w : world) :
  Array_filter
    (fun d =>
       let! d_id := get_id d in
       ret (negb (strict_equals d_id key)))
    l w
  = if existsb is_null l
    then (Throw null_read, w)
    else (Normal (List.filter (kept key) l), w).
Proof.
  set (f := fun d : json => _).
  assert (Hf : forall d, f d w
            = if is_null d then (Throw null_read, w)
              else (Normal (kept key d), w))
    by (intros []; reflexivity).
  induction l as [|d rest IH]; [reflexivity|].
  cbn [Array_filter existsb List.filter]. unfold bind at 1. rewrite Hf.
  destruct (is_null d); cbn [orb]; [reflexivity|].
  unfold bind at 1. rewrite IH.
  destruct (existsb is_null rest); [reflexivity|].
  unfold ret. destruct (kept key d); reflexivity.
Qed.

Lemma create_eq (doc : json) (w : world) :
  DiagnosisRepository.create this doc w
  = let novo := JObj (spread {[ "id" := JNum (clock w) ]} doc) in
    (Normal novo, persist this (persisted this w ++ [novo]) w).
Proof.
  unfold DiagnosisRepository.create, bind.
  rewrite readAll_persisted. reflexivity.
Qed.

Lemma update_eq (id patch : json) (w : world) :
  DiagnosisRepository.update this id patch w
  = if existsb is_null (persisted this w)
    then (Throw null_read, w)
    else (Normal true,
          persist this (map (patched (parseInt id) patch) (persisted this w)) w).
Proof.
  unfold DiagnosisRepository.update. unfold bind at 1.
  rewrite readAll_persisted. unfold bind at 1.
  rewrite map_callback.
  destruct (existsb is_null (persisted this w)); reflexivity.
Qed.

Lemma delete_eq (id : json) (w : world) :
  DiagnosisRepository.delete this id w
  = if existsb is_null (persisted this w)
    then (Throw null_read, w)
    else (Normal true,
          persist this (List.filter (kept (parseInt id)) (persisted this w)) w).
Proof.
  unfold DiagnosisRepository.delete. unfold bind at 1.
  rewrite readAll_persisted. unfold bind at 1.
  rewrite filter_callback.
  destruct (existsb is_null (persisted this w)); reflexivity.
Qed.

End RepositoryFacts.

(** ** Identifiers: [create] and [update] *)

Lemma own_id_spread_id (now : Z) (doc : json) :
  own_id (JObj (spread {[ "id" := JNum now ]} doc))
  = match own_props doc !! "id" with
    | Some supplied => Json supplied
    | None => Json (JNum now)
    end.
Proof.
  unfold own_id, spread.
  destruct (own_props doc !! "id") as [supplied|] eqn:Hdoc.
  - rewrite (lookup_union_Some_l _ _ _ _ Hdoc). reflexivity.
  - rewrite lookup_union_r by exact Hdoc.
    rewrite lookup_singleton_eq. reflexivity.
Qed.

Lemma own_id_patched (key : number) (patch d : json) :
  own_props patch !! "id" = None ->
  own_id (patched key patch d) = own_id d.
Proof.
  intros Hpatch. unfold patched.
  destruct (strict_equals (own_id d) key) eqn:Hmatch; [|reflexivity].
  destruct d as [| | | | |props]; try discriminate Hmatch.
  unfold own_id, spread. cbn [own_props].
  rewrite lookup_union_r by exact Hpatch.
  rewrite (right_id_L ∅ (∪)). reflexivity.
Qed.

Lemma patched_unmatched (key : number) (patch d : json) :
  strict_equals (own_id d) key = false -> patched key patch d = d.
Proof. unfold patched. intros ->. reflexivity. Qed.

(** C1, as stated, fails: with [fields = { id: "abc" }] the record that
    [create] returns carries the caller's ["abc"], not the identifier the
    store took from the clock. *)
Lemma create_caller_id_survives :
  ~ (forall (this : DiagnosisRepository.t) (fields : json) (w : world)
            (novo : json) (w' : world),
        DiagnosisRepository.create this fields w = (Normal novo, w') ->
        own_id novo = Json (JNum (clock w))).
Proof.
  intros claim.
  pose (this := DiagnosisRepository.mk "public/diagnosticos.json").
  pose (fields := JObj {[ "id" := JStr "abc" ]}).
  specialize (claim this fields (blank 1000) _ _ (create_eq this fields _)).
  rewrite own_id_spread_id in claim. cbn in claim. discriminate claim.
Qed.

(** C1, amended: [create(fields)] returns a record made of the fields
    with an [id]; the [id] is the one [fields] supplies when it has one,
    and the reading of the clock ([Date.now()]) otherwise.  The record is
    appended to the collection and the whole is written to the file;
    [list()] shows it from then on, where the file can be read. *)
Theorem create_id_supplied_or_clock
  (this : DiagnosisRepository.t) (fields : json) (w : world) :
  exists novo : json,
    DiagnosisRepository.create this fields w
    = (Normal novo, persist this (persisted this w ++ [novo]) w)
    /\ node_text
         <$> files (exec (DiagnosisRepository.create this fields) w)
               !! DiagnosisRepository.filePath this
       = Some (Document (JArr (persisted this w ++ [novo])))
    /\ (reads_back this w = true ->
        persisted this (exec (DiagnosisRepository.create this fields) w)
        = persisted this w ++ [novo])
    /\ own_id novo
       = match own_props fields !! "id" with
         | Some supplied => Json supplied
         | None => Json (JNum (clock w))
         end.
Proof.
  exists (JObj (spread {[ "id" := JNum (clock w) ]} fields)).
  split; [apply create_eq|].
  unfold exec. rewrite create_eq. cbn zeta. cbn [snd].
  split; [|split].
  - unfold persist, exec, DiagnosisRepository._writeAll, fs_writeFileSync.
    cbn [snd files]. rewrite lookup_insert_eq.
    destruct (files w !! DiagnosisRepository.filePath this)
      as [[hidden|content]|]; reflexivity.
  - intros Hreads. rewrite persisted_persist, Hreads. reflexivity.
  - apply own_id_spread_id.
Qed.

Lemma create_id_supplied_or_clock_witness :
  let this := DiagnosisRepository.mk "public/diagnosticos.json" in
  let w := persist this [JObj {[ "id" := JNum 1 ]}] (blank 1000) in
  exists novo : json,
    persisted this (exec (DiagnosisRepository.create this
                            (JObj {[ "id" := JStr "abc" ]})) w)
    = [JObj {[ "id" := JNum 1 ]}; novo]
    /\ own_id novo = Json (JStr "abc").
Proof.
  cbn zeta.
  destruct (create_id_supplied_or_clock
              (DiagnosisRepository.mk "public/diagnosticos.json")
              (JObj {[ "id" := JStr "abc" ]})
              (persist (DiagnosisRepository.mk "public/diagnosticos.json")
                 [JObj {[ "id" := JNum 1 ]}] (blank 1000)))
    as (novo & _ & _ & Hlisted & Hid).
  exists novo. split.
  - rewrite (Hlisted eq_refl). reflexivity.
  - rewrite Hid. reflexivity.
Defined.

(** C2, as stated, fails: on the collection [[{ id: 1, nome: "A" }]],
    [update("1", { id: 2 })] stores the record with [id] 2. *)
Lemma update_patch_id_changes_id :
  ~ (forall (this : DiagnosisRepository.t) (id patch : json) (w : world),
        map own_id (persisted this (exec (DiagnosisRepository.update this id patch) w))
        = map own_id (persisted this w)).
Proof.
  intros claim.
  pose (this := DiagnosisRepository.mk "public/diagnosticos.json").
  pose (w := persist this [JObj {[ "id" := JNum 1; "nome" := JStr "A" ]}]
               (blank 1000)).
  specialize (claim this (JStr "1") (JObj {[ "id" := JNum 2 ]}) w).
  vm_compute in claim. discriminate claim.
Qed.

(** C2, amended: [update(id, patch)] leaves the [id] of every stored
    record as it was when [patch] has no [id] of its own; whatever the
    patch, a record whose [id] is not strictly equal to [parseInt(id)]
    stays as it was, at the same position.  When [patch] has an [id], a
    record whose [id] is strictly equal to [parseInt(id)] takes it,
    unless a stored element is null, in which case [update] throws and
    writes nothing. *)
Theorem update_keeps_ids_without_patch_id
  (this : DiagnosisRepository.t) (id patch : json) (w : world) :
  let w' := exec (DiagnosisRepository.update this id patch) w in
  (own_props patch !! "id" = None ->
   map own_id (persisted this w') = map own_id (persisted this w))
  /\ (forall (i : nat) (d : json),
        persisted this w !! i = Some d ->
        strict_equals (own_id d) (parseInt id) = false ->
        persisted this w' !! i = Some d)
  /\ (forall (i : nat) (d supplied : json),
        existsb is_null (persisted this w) = false ->
        persisted this w !! i = Some d ->
        strict_equals (own_id d) (parseInt id) = true ->
        own_props patch !! "id" = Some supplied ->
        exists d' : json,
          persisted this w' !! i = Some d' /\ own_id d' = Json supplied)
  /\ (existsb is_null (persisted this w) = true ->
      DiagnosisRepository.update this id patch w = (Throw null_read, w)).
Proof.
  cbn zeta. unfold exec. rewrite update_eq.
  destruct (existsb is_null (persisted this w)); cbn [snd].
  { split; [reflexivity|]. split; [intros i d Hd _; exact Hd|].
    split; [discriminate | reflexivity]. }
  rewrite (persisted_persist_derived this (map (patched (parseInt id) patch)))
    by reflexivity.
  change (map (patched (parseInt id) patch) (persisted this w))
    with (patched (parseInt id) patch <$> persisted this w).
  split; [|split; [|split; [|discriminate]]].
  - intros Hpatch.
    change (patched (parseInt id) patch <$> persisted this w)
      with (map (patched (parseInt id) patch) (persisted this w)).
    rewrite map_map. apply map_ext.
    intros d. apply own_id_patched, Hpatch.
  - intros i d Hd Hmiss.
    rewrite list_lookup_fmap, Hd. cbn.
    rewrite patched_unmatched by exact Hmiss. reflexivity.
  - intros i d supplied _ Hd Hmatch Hsupplied.
    rewrite list_lookup_fmap, Hd. cbn.
    eexists. split; [reflexivity|].
    unfold patched. rewrite Hmatch. unfold own_id, spread.
    rewrite (lookup_union_Some_l _ _ _ _ Hsupplied). reflexivity.
Qed.

Lemma update_keeps_ids_without_patch_id_witness :
  let this := DiagnosisRepository.mk "public/diagnosticos.json" in
  let w := persist this [JObj {[ "id" := JNum 1; "nome" := JStr "A" ]}]
             (blank 1000) in
  let w' := exec (DiagnosisRepository.update this (JStr "1")
                    (JObj {[ "nome" := JStr "Atualizado" ]})) w in
  own_props (JObj {[ "nome" := JStr "Atualizado" ]}) !! "id" = None
  /\ map own_id (persisted this w') = map own_id (persisted this w).
Proof.
  cbn zeta. split; [reflexivity|].
  apply (update_keeps_ids_without_patch_id
           (DiagnosisRepository.mk "public/diagnosticos.json")
           (JStr "1") (JObj {[ "nome" := JStr "Atualizado" ]})).
  reflexivity.
Defined.

(** C3 fails on the code: two [create] calls that read the same
    millisecond from the clock store two records with the same [id]. *)
Theorem create_twice_same_millisecond :
  let path := "public/diagnosticos.json" in
  let this := DiagnosisRepository.mk path in
  let w0 := exec (DiagnosisRepository.constructor path) (blank 1000) in
  let w := steps this w0 [Create (JObj ∅); Create (JObj ∅)] in
  persisted this w0 = []
  /\ map own_id (persisted this w) = [Json (JNum 1000); Json (JNum 1000)]
  /\ ~ NoDup (map own_id (persisted this w)).
Proof.
  cbn zeta.
  split; [vm_compute; reflexivity|].
  assert (Hids :
    map own_id
      (persisted (DiagnosisRepository.mk "public/diagnosticos.json")
         (steps (DiagnosisRepository.mk "public/diagnosticos.json")
            (exec (DiagnosisRepository.constructor "public/diagnosticos.json")
               (blank 1000))
            [Create (JObj ∅); Create (JObj ∅)]))
    = [Json (JNum 1000); Json (JNum 1000)])
    by (vm_compute; reflexivity).
  split; [exact Hids|].
  rewrite Hids. intros Hnodup.
  apply NoDup_cons_1_1 in Hnodup. apply Hnodup. left.
Qed.

(** ** Reading: the fail-open policy *)

(** C6: when the file is missing, cannot be read, does not parse, or
    parses to something that is not an array, [list()] returns the empty
    collection; it does not throw and changes nothing. *)
Theorem list_fail_open (this : DiagnosisRepository.t) (w : world) :
  let entry := files w !! DiagnosisRepository.filePath this in
  (entry = None
   \/ (exists hidden, entry = Some (Unreadable hidden))
   \/ (exists raw, entry = Some (File (Malformed raw)))
   \/ (exists j, entry = Some (File (Document j))
                 /\ forall elems, j <> JArr elems)) ->
  DiagnosisRepository.list this w = (Normal [], w).
Proof.
  cbn zeta.
  unfold DiagnosisRepository.list, DiagnosisRepository._readAll,
    try_catch, bind, fs_readFileSync.
  intros [-> | [[hidden ->] | [[raw ->] | [j [-> Hshape]]]]];
    try reflexivity.
  destruct j; try reflexivity.
  exfalso. eapply Hshape. reflexivity.
Qed.

Lemma list_fail_open_witness :
  let this := DiagnosisRepository.mk "public/diagnosticos.json" in
  let missing := blank 1000 in
  let object := mkWorld {[ "public/diagnosticos.json" :=
                             File (Document (JObj {[ "id" := JNum 1 ]})) ]}
                        1000 [] in
  DiagnosisRepository.list this missing = (Normal [], missing)
  /\ DiagnosisRepository.list this object = (Normal [], object).
Proof.
  cbn zeta. split.
  - apply list_fail_open. left. reflexivity.
  - apply list_fail_open. right. right. right.
    exists (JObj {[ "id" := JNum 1 ]}).
    split; [reflexivity | discriminate].
Defined.

(** ** Calls with an identifier *)

Lemma strict_equals_true (v : value) (key : number) :
  strict_equals v key = true ->
  exists z, v = Json (JNum z) /\ key = Int z.
Proof.
  destruct v as [| |[]]; try discriminate.
  destruct key as [|b|negative]; try discriminate.
  cbn. intros Heq. apply Z.eqb_eq in Heq. subst. eauto.
Qed.

Lemma strict_equals_not_numeric (v : value) (key : number) :
  ~ numeric v -> strict_equals v key = false.
Proof.
  intros Hv. destruct (strict_equals v key) eqn:Heq; [|reflexivity].
  destruct (strict_equals_true _ _ Heq) as (z & -> & _).
  exfalso. apply Hv. exists z. reflexivity.
Qed.

Lemma map_patched_unmatched (key : number) (patch : json) (l : list json) :
  Forall (fun d => is_null d = false /\ strict_equals (own_id d) key = false) l ->
  existsb is_null l = false
  /\ map (patched key patch) l = l
  /\ List.filter (kept key) l = l.
Proof.
  induction 1 as [|d rest [Hnull Hmiss] _ (IHnull & IHmap & IHfilter)];
    [repeat split|].
  cbn [existsb map List.filter]. unfold kept at 1.
  rewrite Hnull, IHnull, IHmap, IHfilter, Hmiss,
    (patched_unmatched _ _ _ Hmiss).
  repeat split.
Qed.

Lemma no_null_filter (p : json -> bool) (l : list json) :
  existsb is_null l = false -> existsb is_null (List.filter p l) = false.
Proof.
  induction l as [|d rest IH]; [reflexivity|].
  cbn [existsb List.filter]. intros Hl.
  apply orb_false_iff in Hl as [Hd Hrest].
  destruct (p d); cbn [existsb]; rewrite ?Hd; auto.
Qed.

Lemma filter_kept_twice (key : number) (l : list json) :
  List.filter (kept key) (List.filter (kept key) l) = List.filter (kept key) l.
Proof.
  induction l as [|d rest IH]; [reflexivity|].
  cbn [List.filter]. destruct (kept key d) eqn:Hd; [|exact IH].
  cbn [List.filter]. rewrite Hd, IH. reflexivity.
Qed.

(** C7, as stated, fails: in the stored array [[null]] no record has the
    identifier 999, yet [update(999, {})] and [delete(999)] throw, on
    reading [id] of the null element. *)
Lemma unknown_id_throws_on_null :
  ~ (forall (this : DiagnosisRepository.t) (id patch : json) (w : world),
        Forall (fun d => strict_equals (own_id d) (parseInt id) = false)
               (persisted this w) ->
        fst (DiagnosisRepository.update this id patch w) = Normal true
        /\ fst (DiagnosisRepository.delete this id w) = Normal true).
Proof.
  intros claim.
  pose (this := DiagnosisRepository.mk "public/diagnosticos.json").
  destruct (claim this (JNum 999) (JObj ∅) (persist this [JNull] (blank 1000)))
    as [Hupdate _].
  - rewrite persisted_persist. repeat constructor.
  - rewrite update_eq, persisted_persist in Hupdate. discriminate Hupdate.
Qed.

(** C7, amended: when no stored element is null and none has an [id]
    strictly equal to [parseInt(id)], [update(id, patch)] and
    [delete(id)] return without throwing and write the collection back
    as it was: one more write in the journal, the same collection read
    afterwards. *)
Theorem unknown_id_persists_unchanged
  (this : DiagnosisRepository.t) (id patch : json) (w : world) :
  Forall (fun d => is_null d = false
                   /\ strict_equals (own_id d) (parseInt id) = false)
         (persisted this w) ->
  let w' := persist this (persisted this w) w in
  DiagnosisRepository.update this id patch w = (Normal true, w')
  /\ DiagnosisRepository.delete this id w = (Normal true, w')
  /\ persisted this w' = persisted this w
  /\ journal w'
     = journal w ++ [(DiagnosisRepository.filePath this,
                      JSON_stringify (JArr (persisted this w)))].
Proof.
  intros Hmiss. cbn zeta.
  destruct (map_patched_unmatched _ patch _ Hmiss) as (Hnull & Hmap & Hfilter).
  rewrite update_eq, delete_eq, Hnull, Hmap, Hfilter.
  rewrite (persisted_persist_derived this (fun l => l)) by reflexivity.
  repeat split.
Qed.

Lemma unknown_id_persists_unchanged_witness :
  let this := DiagnosisRepository.mk "public/diagnosticos.json" in
  let w := persist this [JObj {[ "id" := JNum 1; "nome" := JStr "X" ]}]
             (blank 1000) in
  let w' := persist this (persisted this w) w in
  DiagnosisRepository.update this (JNum 999) (JObj {[ "nome" := JStr "Novo" ]}) w
  = (Normal true, w')
  /\ DiagnosisRepository.delete this (JNum 999) w = (Normal true, w')
  /\ persisted this w' = [JObj {[ "id" := JNum 1; "nome" := JStr "X" ]}].
Proof.
  cbn zeta.
  pose proof (unknown_id_persists_unchanged
                (DiagnosisRepository.mk "public/diagnosticos.json")
                (JNum 999) (JObj {[ "nome" := JStr "Novo" ]})
                (persist (DiagnosisRepository.mk "public/diagnosticos.json")
                   [JObj {[ "id" := JNum 1; "nome" := JStr "X" ]}]
                   (blank 1000))) as H.
  destruct H as (Hupdate & Hdelete & Hsame & _).
  - rewrite persisted_persist. repeat constructor.
  - split; [exact Hupdate|]. split; [exact Hdelete|].
    rewrite Hsame. apply persisted_persist.
Defined.

(** C8: a second [delete(id)] right after a first one leaves the files,
    and so the persisted collection, as the first one left them, and ends
    the way the first one did. *)
Theorem delete_twice_as_once
  (this : DiagnosisRepository.t) (id : json) (w : world) :
  let once := exec (DiagnosisRepository.delete this id) w in
  let twice := exec (DiagnosisRepository.delete this id) once in
  files twice = files once
  /\ persisted this twice = persisted this once
  /\ fst (DiagnosisRepository.delete this id once)
     = fst (DiagnosisRepository.delete this id w).
Proof.
  cbn zeta. unfold exec.
  rewrite (delete_eq this id w).
  destruct (existsb is_null (persisted this w)) eqn:Hnull; cbn [snd fst].
  - rewrite delete_eq, Hnull. repeat split.
  - rewrite delete_eq.
    rewrite (persisted_persist_derived this (List.filter (kept (parseInt id))))
      by reflexivity.
    rewrite (no_null_filter _ _ Hnull), filter_kept_twice. cbn [snd fst].
    split; [apply persist_persist_files|].
    split; [|reflexivity].
    rewrite (persisted_files this _ _ (persist_persist_files this _ w)).
    apply (persisted_persist_derived this (List.filter (kept (parseInt id)))).
    reflexivity.
Qed.

Lemma update_keeps_unmatched
  (this : DiagnosisRepository.t) (id patch : json) (w : world) (d : json) :
  strict_equals (own_id d) (parseInt id) = false ->
  (forall i, persisted this w !! i = Some d ->
             persisted this (exec (DiagnosisRepository.update this id patch) w) !! i
             = Some d)
  /\ (In d (persisted this w) ->
      In d (persisted this (exec (DiagnosisRepository.update this id patch) w))).
Proof.
  intros Hmiss. unfold exec. rewrite update_eq.
  destruct (existsb is_null (persisted this w)); cbn [snd]; [tauto|].
  rewrite (persisted_persist_derived this (map (patched (parseInt id) patch)))
    by reflexivity.
  split.
  - intros i Hd.
    change (map (patched (parseInt id) patch) (persisted this w))
      with (patched (parseInt id) patch <$> persisted this w).
    rewrite list_lookup_fmap, Hd. cbn.
    rewrite patched_unmatched by exact Hmiss. reflexivity.
  - intros Hd. rewrite <- (patched_unmatched (parseInt id) patch d Hmiss).
    apply in_map, Hd.
Qed.

Lemma delete_keeps_unmatched
  (this : DiagnosisRepository.t) (id : json) (w : world) (d : json) :
  strict_equals (own_id d) (parseInt id) = false ->
  In d (persisted this w) ->
  In d (persisted this (exec (DiagnosisRepository.delete this id) w)).
Proof.
  intros Hmiss Hd. unfold exec. rewrite delete_eq.
  destruct (existsb is_null (persisted this w)); cbn [snd]; [exact Hd|].
  rewrite (persisted_persist_derived this (List.filter (kept (parseInt id))))
    by reflexivity.
  apply filter_In. split; [exact Hd|].
  unfold kept. rewrite Hmiss. reflexivity.
Qed.

Lemma reads_back_of_stored
  (this : DiagnosisRepository.t) (w : world) (d : json) :
  In d (persisted this w) -> reads_back this w = true.
Proof.
  intros Hd. destruct (reads_back this w) eqn:Hreads; [reflexivity|].
  rewrite (persisted_unreadable this w Hreads) in Hd. destruct Hd.
Qed.

Lemma step_keeps_non_numeric
  (this : DiagnosisRepository.t) (d : json) (w : world) (c : call) :
  ~ numeric (own_id d) ->
  In d (persisted this w) -> In d (persisted this (step this w c)).
Proof.
  intros Hid Hd. destruct c as [doc | id patch | id | ms]; cbn [step].
  - unfold exec. rewrite create_eq. cbn [snd].
    rewrite persisted_persist, (reads_back_of_stored this w d Hd).
    apply in_or_app. left. exact Hd.
  - apply update_keeps_unmatched;
      [apply strict_equals_not_numeric, Hid | exact Hd].
  - apply delete_keeps_unmatched;
      [apply strict_equals_not_numeric, Hid | exact Hd].
  - rewrite (persisted_files this _ w) by reflexivity. exact Hd.
Qed.

(** C9: [update] and [delete] go through the stored elements comparing
    [d.id === parseInt(id)]: unless an element is null, on which both
    throw, [update] writes each record for which the comparison holds
    merged with the patch and every other one as it is, and [delete]
    writes the records for which it does not hold.  So a record that
    [update] changes, or that [delete] drops, has a number for [id], the
    one [parseInt(id)] gives; and a record whose [id] is not a number
    stays as it is, through any [update], any [delete], and any sequence
    of calls. *)
Theorem non_numeric_id_out_of_reach
  (this : DiagnosisRepository.t) (w : world) :
  (forall id patch : json,
      DiagnosisRepository.update this id patch w
      = if existsb is_null (persisted this w)
        then (Throw null_read, w)
        else (Normal true,
              persist this
                (map (fun d => if strict_equals (own_id d) (parseInt id)
                               then JObj (spread (spread ∅ d) patch)
                               else d)
                     (persisted this w))
                w))
  /\ (forall id : json,
        DiagnosisRepository.delete this id w
        = if existsb is_null (persisted this w)
          then (Throw null_read, w)
          else (Normal true,
                persist this
                  (List.filter
                     (fun d => negb (strict_equals (own_id d) (parseInt id)))
                     (persisted this w))
                  w))
  /\ (forall (id patch : json) (i : nat) (d : json),
        persisted this w !! i = Some d ->
        persisted this (exec (DiagnosisRepository.update this id patch) w) !! i
        <> Some d ->
        exists z, own_id d = Json (JNum z) /\ parseInt id = Int z)
  /\ (forall (id d : json),
        In d (persisted this w) ->
        ~ In d (persisted this (exec (DiagnosisRepository.delete this id) w)) ->
        exists z, own_id d = Json (JNum z) /\ parseInt id = Int z)
  /\ (forall d : json,
        ~ numeric (own_id d) ->
        (forall (id patch : json) (i : nat),
            persisted this w !! i = Some d ->
            persisted this (exec (DiagnosisRepository.update this id patch) w) !! i
            = Some d)
        /\ (forall id : json,
              In d (persisted this w) ->
              In d (persisted this (exec (DiagnosisRepository.delete this id) w)))
        /\ (forall cs : list call,
              In d (persisted this w) ->
              In d (persisted this (steps this w cs)))).
Proof.
  split; [intros id patch; apply update_eq|].
  split; [intros id; apply delete_eq|].
  split; [|split].
  - intros id patch i d Hd Hchanged.
    destruct (strict_equals (own_id d) (parseInt id)) eqn:Hmatch.
    + apply strict_equals_true, Hmatch.
    + exfalso. apply Hchanged.
      apply (update_keeps_unmatched this id patch w d Hmatch), Hd.
  - intros id d Hd Hdropped.
    destruct (strict_equals (own_id d) (parseInt id)) eqn:Hmatch.
    + apply strict_equals_true, Hmatch.
    + exfalso. apply Hdropped.
      apply delete_keeps_unmatched; assumption.
  - intros d Hid. split; [|split].
    + intros id patch i Hd.
      apply (update_keeps_unmatched this id patch w d); [|exact Hd].
      apply strict_equals_not_numeric, Hid.
    + intros id Hd. apply delete_keeps_unmatched; [|exact Hd].
      apply strict_equals_not_numeric, Hid.
    + intros cs. revert w. unfold steps.
      induction cs as [|c cs IH]; intros w Hd; [exact Hd|].
      cbn [fold_left]. apply IH, step_keeps_non_numeric; assumption.
Qed.

Lemma non_numeric_id_out_of_reach_witness :
  let this := DiagnosisRepository.mk "public/diagnosticos.json" in
  let d := JObj {[ "id" := JStr "7"; "nome" := JStr "A" ]} in
  let w := persist this [d] (blank 1000) in
  ~ numeric (own_id d)
  /\ In d (persisted this w)
  /\ In d (persisted this
             (steps this w [Update (JStr "7") (JObj {[ "nome" := JStr "B" ]});
                            Delete (JStr "7")])).
Proof.
  cbn zeta.
  assert (Hid : ~ numeric (own_id (JObj {[ "id" := JStr "7"; "nome" := JStr "A" ]})))
    by (intros [z Hz]; vm_compute in Hz; discriminate Hz).
  assert (Hd : In (JObj {[ "id" := JStr "7"; "nome" := JStr "A" ]})
                 (persisted (DiagnosisRepository.mk "public/diagnosticos.json")
                    (persist (DiagnosisRepository.mk "public/diagnosticos.json")
                       [JObj {[ "id" := JStr "7"; "nome" := JStr "A" ]}]
                       (blank 1000))))
    by (rewrite persisted_persist; left; reflexivity).
  split; [exact Hid|]. split; [exact Hd|].
  apply (non_numeric_id_out_of_reach
           (DiagnosisRepository.mk "public/diagnosticos.json")
           (persist (DiagnosisRepository.mk "public/diagnosticos.json")
              [JObj {[ "id" := JStr "7"; "nome" := JStr "A" ]}]
              (blank 1000))).
  - exact Hid.
  - exact Hd.
Defined.

(** ** The prediction client *)

Section ClientFacts.

Variable this : PredictionClient.t.

Lemma typeof_not_object (payload : value) :
  typeof payload <> "object" ->
  negb (truthy payload) || negb (String.eqb (typeof payload) "object") = true.
Proof.
  intros Hkind. apply orb_true_iff. right.
  destruct (String.eqb_spec (typeof payload) "object") as [Heq|_];
    [contradiction | reflexivity].
Qed.

Lemma diagnose_refused (payload : value) (w : net) :
  negb (truthy payload) || negb (String.eqb (typeof payload) "object") = true ->
  PredictionClient.diagnose this payload w = (Throw invalid_payload, w).
Proof. unfold PredictionClient.diagnose. intros ->. reflexivity. Qed.

Lemma diagnose_forwarded (payload : value) (w : net) :
  negb (truthy payload) || negb (String.eqb (typeof payload) "object") = false ->
  let req := mkRequest (PredictionClient.baseUrl this +:+ "/predict")
                       payload 8000 in
  PredictionClient.diagnose this payload w
  = (match remote w req with
     | Resolves res => Normal (data res)
     | Rejects err =>
         Throw (Error ("Falha ao chamar serviço de predição: " +:+ message err))
     end,
     mkNet (remote w) (sent w ++ [req])).
Proof.
  unfold PredictionClient.diagnose. intros ->. cbn zeta.
  unfold try_catch, bind, axios_post.
  destruct (remote w _); reflexivity.
Qed.

Lemma retrain_eq (w : net) :
  let req := mkRequest (PredictionClient.baseUrl this +:+ "/train")
                       (Json (JObj ∅)) 20000 in
  PredictionClient.retrain this w
  = (match remote w req with
     | Resolves res => Normal (data res)
     | Rejects err =>
         Throw (Error ("Falha ao re-treinar modelo: " +:+ message err))
     end,
     mkNet (remote w) (sent w ++ [req])).
Proof.
  cbn zeta. unfold PredictionClient.retrain, try_catch, bind, axios_post.
  destruct (remote w _); reflexivity.
Qed.

End ClientFacts.

(** C4, as stated, fails: the empty array is not null and is not a
    mapping, yet [diagnose] does not refuse it; the request goes out. *)
Lemma diagnose_forwards_array :
  ~ (forall (this : PredictionClient.t) (payload : value) (w : net),
        payload = Json JNull \/ ~ mapping payload ->
        PredictionClient.diagnose this payload w = (Throw invalid_payload, w)).
Proof.
  intros claim.
  pose (this := PredictionClient.constructor "http://localhost:5000").
  pose (w := mkNet (fun _ => Resolves (mkResponse (JObj ∅))) []).
  specialize (claim this (Json (JArr [])) w).
  rewrite diagnose_forwarded in claim by reflexivity.
  assert (Hnot : ~ mapping (Json (JArr []))) by (intros [props Hprops]; discriminate).
  specialize (claim (or_intror Hnot)). discriminate claim.
Qed.

(** C4, amended: a payload that is null, or whose type is not object
    (undefined, a boolean, a number, a string), makes [diagnose] end
    with the invalid-payload error before any request: the world of the
    client is as before.  The method being [async], the call does not
    throw: the promise it returns is rejected with that error. *)
Theorem diagnose_refuses_non_object
  (this : PredictionClient.t) (payload : value) (w : net) :
  payload = Json JNull \/ typeof payload <> "object" ->
  PredictionClient.diagnose this payload w = (Throw invalid_payload, w)
  /\ sent (exec (PredictionClient.diagnose this payload) w) = sent w
  /\ call_async (PredictionClient.diagnose this payload) w
     = (Normal (Rejected invalid_payload), w).
Proof.
  intros Hbad.
  assert (Hrun : PredictionClient.diagnose this payload w
                 = (Throw invalid_payload, w)).
  { apply diagnose_refused. destruct Hbad as [-> | Hkind];
      [reflexivity | apply typeof_not_object, Hkind]. }
  unfold exec, call_async. rewrite Hrun. repeat split.
Qed.

Lemma diagnose_refuses_non_object_witness :
  let this := PredictionClient.constructor "http://localhost:5000" in
  let w := mkNet (fun _ => Resolves (mkResponse (JObj ∅))) [] in
  PredictionClient.diagnose this (Json JNull) w = (Throw invalid_payload, w)
  /\ PredictionClient.diagnose this (Json (JStr "non-object")) w
     = (Throw invalid_payload, w).
Proof.
  cbn zeta. split.
  - apply diagnose_refuses_non_object. left. reflexivity.
  - apply diagnose_refuses_non_object. right. discriminate.
Defined.

(** C5: [retrain()] issues one request, to [{base}/train] with body [{}]
    and timeout 20000; when the request is rejected with an error whose
    message is ["erro"], [retrain] throws an error whose message is
    ["Falha ao re-treinar modelo: erro"]: the message of the cause is
    carried along. *)
Theorem retrain_one_request (this : PredictionClient.t) (w : net) :
  let req := mkRequest (PredictionClient.baseUrl this +:+ "/train")
                       (Json (JObj ∅)) 20000 in
  sent (exec (PredictionClient.retrain this) w) = sent w ++ [req]
  /\ (forall err : error,
        remote w req = Rejects err ->
        fst (PredictionClient.retrain this w)
        = Throw (Error ("Falha ao re-treinar modelo: " +:+ message err)))
  /\ (forall err : error,
        remote w req = Rejects err ->
        message err = "erro" ->
        fst (PredictionClient.retrain this w)
        = Throw (Error "Falha ao re-treinar modelo: erro")).
Proof.
  cbn zeta. unfold exec. rewrite retrain_eq. cbn zeta. cbn [fst snd sent].
  split; [reflexivity|].
  split.
  - intros err ->. reflexivity.
  - intros err -> ->. reflexivity.
Qed.

Lemma retrain_one_request_witness :
  let this := PredictionClient.constructor "http://localhost:5000/" in
  let w := mkNet (fun _ => Rejects (Error "erro")) [] in
  sent (exec (PredictionClient.retrain this) w)
  = [mkRequest "http://localhost:5000/train" (Json (JObj ∅)) 20000]
  /\ fst (PredictionClient.retrain this w)
     = Throw (Error "Falha ao re-treinar modelo: erro").
Proof.
  cbn zeta.
  destruct (retrain_one_request
              (PredictionClient.constructor "http://localhost:5000/")
              (mkNet (fun _ => Rejects (Error "erro")) []))
    as (Hsent & _ & Hthrown).
  split; [exact Hsent|].
  apply (Hthrown (Error "erro")); reflexivity.
Defined.

(** C10: [diagnose] throws the invalid-payload error exactly when the
    payload is falsy or its type is not object.  An array, the empty one
    included, passes the check: the request to [{base}/predict] is
    issued with the array as body. *)
Theorem diagnose_invalid_exactly (this : PredictionClient.t) (w : net) :
  (forall payload : value,
      fst (PredictionClient.diagnose this payload w) = Throw invalid_payload
      <-> (truthy payload = false \/ typeof payload <> "object"))
  /\ (forall elems : list json,
        fst (PredictionClient.diagnose this (Json (JArr elems)) w)
        <> Throw invalid_payload
        /\ sent (exec (PredictionClient.diagnose this (Json (JArr elems))) w)
           = sent w ++ [mkRequest (PredictionClient.baseUrl this +:+ "/predict")
                                  (Json (JArr elems)) 8000]).
Proof.
  assert (Hpass : forall payload,
    negb (truthy payload) || negb (String.eqb (typeof payload) "object") = false ->
    fst (PredictionClient.diagnose this payload w) <> Throw invalid_payload).
  { intros payload Hok. rewrite diagnose_forwarded by exact Hok.
    cbn zeta. cbn [fst]. destruct (remote w _); cbn; discriminate. }
  split.
  - intros payload.
    destruct (negb (truthy payload)
              || negb (String.eqb (typeof payload) "object")) eqn:Hcheck.
    + rewrite diagnose_refused by exact Hcheck. split; [intros _|reflexivity].
      apply orb_true_iff in Hcheck as [Hfalsy | Hkind].
      * left. apply negb_true_iff, Hfalsy.
      * right. apply negb_true_iff in Hkind. intros Heq.
        rewrite Heq in Hkind. discriminate Hkind.
    + split; [intros Hthrown; exfalso; exact (Hpass _ Hcheck Hthrown)|].
      apply orb_false_iff in Hcheck as [Htruthy Hkind].
      apply negb_false_iff in Htruthy, Hkind.
      intros [Hfalsy | Hother].
      * rewrite Hfalsy in Htruthy. discriminate Htruthy.
      * exfalso. apply Hother. apply String.eqb_eq, Hkind.
  - intros elems. split; [apply Hpass; reflexivity|].
    unfold exec. rewrite diagnose_forwarded by reflexivity. reflexivity.
Qed.

(** ** Identifiers through [parseInt] *)

Lemma digit_value_pretty_char (m : N) :
  (m < 10)%N -> digit_value (pretty_N_char m) = Some (Z.of_N m).
Proof.
  intros Hm.
  assert (m = 0 \/ m = 1 \/ m = 2 \/ m = 3 \/ m = 4 \/ m = 5
          \/ m = 6 \/ m = 7 \/ m = 8 \/ m = 9)%N as Hcases by lia.
  repeat destruct Hcases as [-> | Hcases]; try subst m; reflexivity.
Qed.

Lemma digits_prefix_pretty_go (x : N) (s : string) :
  digits_prefix 10 (pretty_N_go x s) None
  = digits_prefix 10 s (if (x =? 0)%N then None else Some (Z.of_N x)).
Proof.
  revert s. induction (N.lt_wf_0 x) as [x _ IH]. intros s.
  destruct (N.eqb_spec x 0) as [-> | Hpos]; [reflexivity|].
  rewrite pretty_N_go_step by lia.
  rewrite IH by (apply N.div_lt; lia).
  cbn [digits_prefix].
  rewrite digit_value_pretty_char by (apply N.mod_lt; lia).
  pose proof (N.div_mod x 10 ltac:(lia)) as Hdiv.
  pose proof (N.mod_lt x 10 ltac:(lia)) as Hmod.
  set (q := (x `div` 10)%N) in *. set (r := (x `mod` 10)%N) in *.
  clearbody q r.
  assert (Hlt : (Z.of_N r <? 10) = true) by (apply Z.ltb_lt; lia).
  rewrite Hlt. f_equal. f_equal.
  destruct (N.eqb_spec q 0) as [Hzero | _]; cbn [default]; unfold id; lia.
Qed.

Lemma digits_only_pretty_go (x : N) (s : string) :
  digits_only s -> digits_only (pretty_N_go x s).
Proof.
  revert s. induction (N.lt_wf_0 x) as [x _ IH]. intros s Hs.
  destruct (N.eqb_spec x 0) as [-> | Hpos]; [exact Hs|].
  rewrite pretty_N_go_step by lia.
  apply IH; [apply N.div_lt; lia|].
  split; [|exact Hs].
  exists (x `mod` 10)%N. split; [apply N.mod_lt; lia | reflexivity].
Qed.

Lemma digit_char_cases (c : ascii) :
  (exists m : N, (m < 10)%N /\ c = pretty_N_char m) ->
  c = "0"%char \/ c = "1"%char \/ c = "2"%char \/ c = "3"%char
  \/ c = "4"%char \/ c = "5"%char \/ c = "6"%char \/ c = "7"%char
  \/ c = "8"%char \/ c = "9"%char.
Proof.
  intros (m & Hm & ->).
  assert (m = 0 \/ m = 1 \/ m = 2 \/ m = 3 \/ m = 4 \/ m = 5
          \/ m = 6 \/ m = 7 \/ m = 8 \/ m = 9)%N as Hcases by lia.
  repeat destruct Hcases as [-> | Hcases]; try subst m; cbn; tauto.
Qed.

(** A numeral has no white space to trim and no [0x] prefix: [parseInt]
    reads it in base ten, after the sign if there is one. *)
Lemma parseInt_digits_only (s : string) :
  digits_only s ->
  parseInt (JStr s)
  = match digits_prefix 10 s None with
    | Some n => to_double (1 * n)
    | None => NaN
    end
  /\ parseInt (JStr (String "-" s))
     = match digits_prefix 10 s None with
       | Some n => to_double (-1 * n)
       | None => NaN
       end.
Proof.
  destruct s as [|c rest]; [split; reflexivity|].
  intros [Hc Hrest].
  apply digit_char_cases in Hc.
  repeat destruct Hc as [-> | Hc]; try subst c; try (split; reflexivity).
  destruct rest as [|c2 rest2]; [split; reflexivity|].
  destruct Hrest as [Hc2 _].
  apply digit_char_cases in Hc2.
  repeat destruct Hc2 as [-> | Hc2]; try subst c2; split; reflexivity.
Qed.

Lemma to_double_safe (z : Z) :
  Z.abs z < 9007199254740992 -> to_double z = Int z.
Proof.
  intros Hz. unfold to_double.
  destruct (Z.ltb_spec (Z.abs z) 9007199254740992) as [_ | Hge];
    [reflexivity | lia].
Qed.

Lemma parseInt_pretty_N (x : N) :
  x <> 0%N ->
  Z.of_N x < 9007199254740992 ->
  parseInt (JStr (pretty_N_go x "")) = Int (Z.of_N x)
  /\ parseInt (JStr (String "-" (pretty_N_go x ""))) = Int (- Z.of_N x).
Proof.
  intros Hx Hsafe.
  destruct (parseInt_digits_only (pretty_N_go x ""))
    as [Hplus Hminus]; [apply digits_only_pretty_go; exact I|].
  rewrite Hplus, Hminus, digits_prefix_pretty_go.
  destruct (N.eqb_spec x 0) as [|_]; [contradiction|].
  cbn [digits_prefix].
  rewrite !to_double_safe by lia. split; f_equal; lia.
Qed.

Lemma parseInt_decimal (z : Z) :
  Z.abs z < 9007199254740992 -> parseInt (JStr (pretty z)) = Int z.
Proof.
  destruct z as [|p|p]; intros Hz; [reflexivity| |].
  - apply (parseInt_pretty_N (N.pos p)); [discriminate | lia].
  - apply (parseInt_pretty_N (N.pos p)); [discriminate | lia].
Qed.

Lemma parseInt_safe_number (z : Z) :
  Z.abs z < 9007199254740992 -> parseInt (JNum z) = Int z.
Proof.
  intros Hz. rewrite <- (parseInt_decimal z Hz).
  unfold parseInt. cbn [ToString]. unfold Number_toString.
  destruct (Z.ltb_spec (Z.abs z) 9007199254740992) as [_ | Hge];
    [reflexivity | lia].
Qed.

(** X1: an integer below [2^53] in magnitude is what [parseInt] reads
    from the number and from its decimal text; so, on a collection of
    records, [delete] called with that text writes back the records whose
    [id] is not that number, and [update] merges the patch into the ones
    whose [id] is. *)
Theorem decimal_text_addresses_id
  (this : DiagnosisRepository.t) (z : Z) (patch : json) (w : world) :
  Z.abs z < 9007199254740992 ->
  existsb is_null (persisted this w) = false ->
  parseInt (JNum z) = Int z
  /\ parseInt (JStr (pretty z)) = Int z
  /\ persisted this (exec (DiagnosisRepository.delete this (JStr (pretty z))) w)
     = List.filter (fun d => negb (has_id z d)) (persisted this w)
  /\ persisted this
       (exec (DiagnosisRepository.update this (JStr (pretty z)) patch) w)
     = map (fun d => if has_id z d then JObj (spread (spread ∅ d) patch) else d)
           (persisted this w).
Proof.
  intros Hz Hnull.
  split; [apply parseInt_safe_number, Hz|].
  split; [apply parseInt_decimal, Hz|].
  unfold exec. rewrite delete_eq, update_eq, Hnull, (parseInt_decimal z Hz).
  cbn [snd]. split.
  - apply (persisted_persist_derived this (List.filter (kept (Int z)))).
    reflexivity.
  - apply (persisted_persist_derived this (map (patched (Int z) patch))).
    reflexivity.
Qed.

Lemma decimal_text_addresses_id_witness :
  let this := DiagnosisRepository.mk "public/diagnosticos.json" in
  let w := persist this [JObj {[ "id" := JNum 1; "nome" := JStr "A" ]};
                         JObj {[ "id" := JNum 2; "nome" := JStr "B" ]}]
             (blank 1000) in
  persisted this (exec (DiagnosisRepository.delete this (JStr (pretty 2))) w)
  = [JObj {[ "id" := JNum 1; "nome" := JStr "A" ]}].
Proof.
  cbn zeta.
  destruct (decimal_text_addresses_id
              (DiagnosisRepository.mk "public/diagnosticos.json") 2 (JObj ∅)
              (persist (DiagnosisRepository.mk "public/diagnosticos.json")
                 [JObj {[ "id" := JNum 1; "nome" := JStr "A" ]};
                  JObj {[ "id" := JNum 2; "nome" := JStr "B" ]}]
                 (blank 1000)))
    as (_ & _ & Hdelete & _); [reflexivity | reflexivity |].
  rewrite Hdelete. vm_compute. reflexivity.
Defined.

(** ** Storage: construction, corrupt files *)

Lemma persisted_bad_entry (this : DiagnosisRepository.t) (w : world) :
  let entry := files w !! DiagnosisRepository.filePath this in
  (entry = None
   \/ (exists hidden, entry = Some (Unreadable hidden))
   \/ (exists raw, entry = Some (File (Malformed raw)))
   \/ (exists j, entry = Some (File (Document j))
                 /\ forall elems, j <> JArr elems)) ->
  persisted this w = [].
Proof.
  cbn zeta.
  unfold persisted, DiagnosisRepository.list, DiagnosisRepository._readAll,
    try_catch, bind, fs_readFileSync.
  intros [-> | [[hidden ->] | [[raw ->] | [j [-> Hshape]]]]];
    try reflexivity.
  destruct j; try reflexivity.
  exfalso. eapply Hshape. reflexivity.
Qed.

(** X2: the constructor creates the file with an empty collection when it is
    missing, and touches nothing when there is a file already, whatever
    it holds; constructing a second time changes nothing. *)
Theorem constructor_ensures_storage (path : string) (w : world) :
  let this := DiagnosisRepository.mk path in
  let w' := exec (DiagnosisRepository.constructor path) w in
  fst (DiagnosisRepository.constructor path w) = Normal this
  /\ (files w !! path = None ->
      files w' = <[path := File (Document (JArr []))]> (files w)
      /\ journal w' = journal w ++ [(path, Document (JArr []))]
      /\ persisted this w' = [])
  /\ (is_Some (files w !! path) -> w' = w)
  /\ exec (DiagnosisRepository.constructor path) w' = w'.
Proof.
  cbn zeta.
  unfold exec, DiagnosisRepository.constructor, DiagnosisRepository._ensureStorage,
    bind, fs_existsSync, fs_writeFileSync, ret.
  cbn [DiagnosisRepository.filePath files].
  destruct (files w !! path) as [entry|] eqn:Hentry.
  - cbn. rewrite Hentry. cbn.
    split; [reflexivity|]. split; [discriminate|].
    split; reflexivity.
  - cbn. rewrite Hentry, lookup_insert_eq. cbn.
    split; [reflexivity|]. split; [|split; [intros [entry [=]] | reflexivity]].
    intros _. split; [reflexivity|]. split; [reflexivity|].
    unfold persisted, DiagnosisRepository.list, DiagnosisRepository._readAll,
      try_catch, bind, fs_readFileSync.
    cbn. rewrite lookup_insert_eq. reflexivity.
Qed.

Lemma constructor_ensures_storage_witness :
  let path := "public/diagnosticos.json" in
  let this := DiagnosisRepository.mk path in
  let w' := exec (DiagnosisRepository.constructor path) (blank 0) in
  journal w' = [(path, Document (JArr []))] /\ persisted this w' = [].
Proof.
  cbn zeta.
  destruct (constructor_ensures_storage "public/diagnosticos.json" (blank 0))
    as (_ & Hmissing & _).
  destruct Hmissing as (_ & Hjournal & Hempty); [reflexivity|].
  split; [exact Hjournal | exact Hempty].
Defined.

(** X3: for an object [fields], the record [create] returns is [fields]
    itself when it has an [id], and [fields] with the clock reading added
    under [id] when it has none: no other field is added, dropped or
    changed. *)
Theorem create_returns_fields_with_id
  (this : DiagnosisRepository.t) (props : gmap string json) (w : world) :
  fst (DiagnosisRepository.create this (JObj props) w)
  = Normal (JObj (match props !! "id" with
                  | Some _ => props
                  | None => <["id" := JNum (clock w)]> props
                  end)).
Proof.
  rewrite create_eq. cbn [fst]. unfold spread. cbn [own_props].
  do 2 f_equal.
  destruct (props !! "id") as [supplied|] eqn:Hid.
  - apply map_eq. intros k.
    destruct (props !! k) as [v|] eqn:Hk.
    + apply lookup_union_Some_l, Hk.
    + rewrite lookup_union_r by exact Hk.
      apply lookup_singleton_ne. intros <-. congruence.
  - symmetry. apply insert_union_singleton_r, Hid.
Qed.

(** X4: [create] on storage that cannot be read as a collection does not
    fail: it answers with the new record and replaces whatever the file
    held by a collection of that one record. *)
Theorem create_overwrites_bad_storage
  (this : DiagnosisRepository.t) (doc : json) (w : world) :
  let entry := files w !! DiagnosisRepository.filePath this in
  (entry = None
   \/ (exists hidden, entry = Some (Unreadable hidden))
   \/ (exists raw, entry = Some (File (Malformed raw)))
   \/ (exists j, entry = Some (File (Document j))
                 /\ forall elems, j <> JArr elems)) ->
  exists novo : json,
    fst (DiagnosisRepository.create this doc w) = Normal novo
    /\ node_text
         <$> files (exec (DiagnosisRepository.create this doc) w)
               !! DiagnosisRepository.filePath this
       = Some (Document (JArr [novo]))
    /\ (reads_back this w = true ->
        files (exec (DiagnosisRepository.create this doc) w)
          !! DiagnosisRepository.filePath this
        = Some (File (Document (JArr [novo])))).
Proof.
  cbn zeta. intros Hbad.
  unfold exec. rewrite create_eq. cbn zeta. cbn [fst snd].
  rewrite (persisted_bad_entry this w Hbad).
  eexists. split; [reflexivity|].
  unfold persist, exec, DiagnosisRepository._writeAll, fs_writeFileSync,
    reads_back.
  cbn [snd files app]. rewrite lookup_insert_eq.
  destruct (files w !! DiagnosisRepository.filePath this)
    as [[hidden|content]|]; split; try reflexivity; discriminate.
Qed.

Lemma create_overwrites_bad_storage_witness :
  let this := DiagnosisRepository.mk "public/diagnosticos.json" in
  let w := mkWorld {[ "public/diagnosticos.json" := File (Malformed "[{") ]}
                   1000 [] in
  exists novo : json,
    fst (DiagnosisRepository.create this (JObj ∅) w) = Normal novo
    /\ node_text
         <$> files (exec (DiagnosisRepository.create this (JObj ∅)) w)
               !! "public/diagnosticos.json"
       = Some (Document (JArr [novo])).
Proof.
  cbn zeta.
  destruct (create_overwrites_bad_storage
              (DiagnosisRepository.mk "public/diagnosticos.json") (JObj ∅)
              (mkWorld {[ "public/diagnosticos.json" := File (Malformed "[{") ]}
                       1000 []))
    as (novo & Hreturned & Htext & _).
  - right. right. left. exists "[{". reflexivity.
  - exists novo. split; [exact Hreturned | exact Htext].
Defined.

(** ** [update] and [delete] on the records they match *)

Lemma patched_twice (key : number) (patch d : json) :
  patched key patch (patched key patch d) = patched key patch d.
Proof.
  unfold patched.
  destruct (strict_equals (own_id d) key) eqn:Hmatch;
    [|rewrite Hmatch; reflexivity].
  destruct (strict_equals (own_id (JObj _)) key); [|reflexivity].
  unfold spread. cbn [own_props]. f_equal.
  rewrite !(right_id_L ∅ (∪)).
  rewrite (assoc_L (∪)), (idemp_L (∪)). reflexivity.
Qed.

Lemma no_null_patched (key : number) (patch : json) (l : list json) :
  existsb is_null l = false ->
  existsb is_null (map (patched key patch) l) = false.
Proof.
  induction l as [|d rest IH]; [reflexivity|].
  cbn [existsb map]. intros Hl.
  apply orb_false_iff in Hl as [Hd Hrest].
  rewrite (IH Hrest), orb_false_r.
  unfold patched. destruct (strict_equals (own_id d) key);
    [reflexivity | exact Hd].
Qed.

(** X5: [update] never changes how many records are stored, whether it
    returns or throws. *)
Theorem update_keeps_length
  (this : DiagnosisRepository.t) (id patch : json) (w : world) :
  length (persisted this (exec (DiagnosisRepository.update this id patch) w))
  = length (persisted this w).
Proof.
  unfold exec. rewrite update_eq.
  destruct (existsb is_null (persisted this w)); cbn [snd]; [reflexivity|].
  rewrite (persisted_persist_derived this (map (patched (parseInt id) patch))) by reflexivity. apply length_map.
Qed.

(** X6: a record whose [id] is the number [parseInt(id)] gives is replaced,
    at its position, by the shallow merge with the patch: a field of the
    patch wins, every other field of the record is kept. *)
Theorem update_merges_patch
  (this : DiagnosisRepository.t) (id patch : json) (w : world)
  (i : nat) (props : gmap string json) (z : Z) :
  existsb is_null (persisted this w) = false ->
  persisted this w !! i = Some (JObj props) ->
  props !! "id" = Some (JNum z) ->
  parseInt id = Int z ->
  exists merged : gmap string json,
    persisted this (exec (DiagnosisRepository.update this id patch) w) !! i
    = Some (JObj merged)
    /\ forall k : string,
         merged !! k = match own_props patch !! k with
                       | Some v => Some v
                       | None => props !! k
                       end.
Proof.
  intros Hnull Hrecord Hid Hkey.
  unfold exec. rewrite update_eq, Hnull. cbn [snd].
  rewrite (persisted_persist_derived this (map (patched (parseInt id) patch))) by reflexivity.
  change (map (patched (parseInt id) patch) (persisted this w))
    with (patched (parseInt id) patch <$> persisted this w).
  rewrite list_lookup_fmap, Hrecord. cbn [fmap option_fmap option_map].
  unfold patched, own_id. rewrite Hid, Hkey. cbn [strict_equals].
  rewrite Z.eqb_refl.
  eexists. split; [reflexivity|].
  intros k. unfold spread. cbn [own_props].
  rewrite (right_id_L ∅ (∪)).
  destruct (own_props patch !! k) as [v|] eqn:Hk.
  - apply lookup_union_Some_l, Hk.
  - apply lookup_union_r, Hk.
Qed.

Lemma update_merges_patch_witness :
  let this := DiagnosisRepository.mk "public/diagnosticos.json" in
  let w := persist this [JObj {[ "id" := JNum 123; "nome" := JStr "A" ]}]
             (blank 1000) in
  exists merged : gmap string json,
    persisted this
      (exec (DiagnosisRepository.update this (JStr "123")
               (JObj {[ "nome" := JStr "Atualizado" ]})) w) !! 0%nat
    = Some (JObj merged)
    /\ merged !! "nome" = Some (JStr "Atualizado")
    /\ merged !! "id" = Some (JNum 123).
Proof.
  cbn zeta.
  destruct (update_merges_patch
              (DiagnosisRepository.mk "public/diagnosticos.json")
              (JStr "123") (JObj {[ "nome" := JStr "Atualizado" ]})
              (persist (DiagnosisRepository.mk "public/diagnosticos.json")
                 [JObj {[ "id" := JNum 123; "nome" := JStr "A" ]}] (blank 1000))
              0%nat {[ "id" := JNum 123; "nome" := JStr "A" ]} 123)
    as (merged & Hat & Hfields); try reflexivity.
  exists merged. split; [exact Hat|].
  split; rewrite Hfields; reflexivity.
Defined.

(** X7: applying the same [update] a second time changes nothing more. *)
Theorem update_twice_as_once
  (this : DiagnosisRepository.t) (id patch : json) (w : world) :
  let once := exec (DiagnosisRepository.update this id patch) w in
  let twice := exec (DiagnosisRepository.update this id patch) once in
  files twice = files once
  /\ fst (DiagnosisRepository.update this id patch once)
     = fst (DiagnosisRepository.update this id patch w).
Proof.
  cbn zeta. unfold exec.
  rewrite (update_eq this id patch w).
  destruct (existsb is_null (persisted this w)) eqn:Hnull; cbn [snd fst].
  - rewrite update_eq, Hnull. split; reflexivity.
  - rewrite update_eq.
    rewrite (persisted_persist_derived this (map (patched (parseInt id) patch))) by reflexivity.
    rewrite (no_null_patched _ _ _ Hnull). cbn [snd fst].
    split; [|reflexivity].
    rewrite map_map.
    rewrite (map_ext _ _ (patched_twice (parseInt id) patch)).
    apply persist_persist_files.
Qed.

Lemma filter_kept_sublist (key : number) (l : list json) :
  sublist (List.filter (kept key) l) l.
Proof.
  induction l as [|d rest IH]; [constructor|].
  cbn [List.filter]. destruct (kept key d); constructor; exact IH.
Qed.

(** X8: after [delete(id)] on a collection of records, no stored record has
    an [id] strictly equal to [parseInt(id)] (every duplicate is gone
    too), and what is left is a subsequence of what was there: nothing is
    added, changed or reordered. *)
Theorem delete_leaves_no_match
  (this : DiagnosisRepository.t) (id : json) (w : world) :
  existsb is_null (persisted this w) = false ->
  let after := persisted this (exec (DiagnosisRepository.delete this id) w) in
  Forall (fun d => strict_equals (own_id d) (parseInt id) = false) after
  /\ sublist after (persisted this w).
Proof.
  intros Hnull. cbn zeta. unfold exec.
  rewrite delete_eq, Hnull. cbn [snd].
  rewrite (persisted_persist_derived this (List.filter (kept (parseInt id)))) by reflexivity.
  split; [|apply filter_kept_sublist].
  apply List.Forall_forall. intros d Hd.
  apply filter_In in Hd as [_ Hkept].
  unfold kept in Hkept. apply negb_true_iff, Hkept.
Qed.

Lemma delete_leaves_no_match_witness :
  let this := DiagnosisRepository.mk "public/diagnosticos.json" in
  let w := persist this [JObj {[ "id" := JNum 2; "nome" := JStr "A" ]};
                         JObj {[ "id" := JNum 1 ]};
                         JObj {[ "id" := JNum 2; "nome" := JStr "B" ]}]
             (blank 1000) in
  let after := persisted this (exec (DiagnosisRepository.delete this (JStr "2")) w) in
  Forall (fun d => strict_equals (own_id d) (parseInt (JStr "2")) = false) after
  /\ sublist after (persisted this w).
Proof.
  cbn zeta.
  apply (delete_leaves_no_match
           (DiagnosisRepository.mk "public/diagnosticos.json") (JStr "2")).
  reflexivity.
Defined.

(** X9: an identifier in which [parseInt] finds no integer matches no record:
    on a collection of records, [update] and [delete] return normally and
    leave the collection as it was. *)
Theorem unparsable_id_matches_nothing
  (this : DiagnosisRepository.t) (id patch : json) (w : world) :
  parseInt id = NaN ->
  existsb is_null (persisted this w) = false ->
  DiagnosisRepository.update this id patch w
  = (Normal true, persist this (persisted this w) w)
  /\ DiagnosisRepository.delete this id w
     = (Normal true, persist this (persisted this w) w).
Proof.
  intros Hkey Hnull.
  rewrite update_eq, delete_eq, Hnull, Hkey.
  assert (Hmap : map (patched NaN patch) (persisted this w) = persisted this w).
  { rewrite <- (map_id (persisted this w)) at 2. apply map_ext.
    intros d. unfold patched. destruct (own_id d) as [| |[]]; reflexivity. }
  assert (Hfilter : List.filter (kept NaN) (persisted this w) = persisted this w).
  { apply forallb_filter_id, forallb_forall. intros d _.
    unfold kept. destruct (own_id d) as [| |[]]; reflexivity. }
  rewrite Hmap, Hfilter. split; reflexivity.
Qed.

Lemma unparsable_id_matches_nothing_witness :
  let this := DiagnosisRepository.mk "public/diagnosticos.json" in
  let records := [JObj {[ "id" := JNum 1; "nome" := JStr "A" ]}] in
  let w := persist this records (blank 1000) in
  DiagnosisRepository.update this (JStr "abc") (JObj {[ "nome" := JStr "B" ]}) w
  = (Normal true, persist this (persisted this w) w)
  /\ DiagnosisRepository.delete this (JStr "abc") w
     = (Normal true, persist this (persisted this w) w).
Proof.
  cbn zeta.
  apply (unparsable_id_matches_nothing
           (DiagnosisRepository.mk "public/diagnosticos.json") (JStr "abc"));
    reflexivity.
Defined.

(** X10: a record created from fields without an [id] is removed again by
    [delete] called with the decimal text of the identifier it was given:
    when the file can be read back, the clock reads below [2^53] and no
    stored record had that identifier, the collection is back to what it
    was before the [create]. *)
Theorem create_then_delete_restores
  (this : DiagnosisRepository.t) (doc : json) (w : world) :
  reads_back this w = true ->
  Z.abs (clock w) < 9007199254740992 ->
  own_props doc !! "id" = None ->
  existsb is_null (persisted this w) = false ->
  Forall (fun d => has_id (clock w) d = false) (persisted this w) ->
  let created := exec (DiagnosisRepository.create this doc) w in
  let deleted :=
    exec (DiagnosisRepository.delete this (JStr (pretty (clock w)))) created in
  length (persisted this created) = S (length (persisted this w))
  /\ persisted this deleted = persisted this w.
Proof.
  intros Hreads Hclock Hdoc Hnull Hfresh. cbn zeta.
  set (novo := JObj (spread {[ "id" := JNum (clock w) ]} doc)).
  assert (Hcreated : exec (DiagnosisRepository.create this doc) w
                     = persist this (persisted this w ++ [novo]) w)
    by (unfold exec; rewrite create_eq; reflexivity).
  assert (Hlisted : persisted this (persist this (persisted this w ++ [novo]) w)
                    = persisted this w ++ [novo])
    by (rewrite persisted_persist, Hreads; reflexivity).
  rewrite Hcreated, Hlisted.
  split; [rewrite length_app; cbn; lia|].
  assert (Hnovo : kept (Int (clock w)) novo = false).
  { unfold kept, novo. rewrite own_id_spread_id, Hdoc. cbn [strict_equals].
    rewrite Z.eqb_refl. reflexivity. }
  unfold exec. rewrite delete_eq, Hlisted, (parseInt_decimal _ Hclock).
  rewrite existsb_app, Hnull. cbn [existsb is_null orb snd novo].
  rewrite <- Hlisted at 1.
  rewrite (persisted_persist_derived this (List.filter (kept (Int (clock w)))))
    by reflexivity.
  rewrite Hlisted, List.filter_app. cbn [List.filter].
  fold novo. rewrite Hnovo, app_nil_r.
  apply forallb_filter_id, forallb_forall. intros d Hd.
  rewrite List.Forall_forall in Hfresh. unfold kept.
  apply negb_true_iff, (Hfresh d Hd).
Qed.

Lemma create_then_delete_restores_witness :
  let this := DiagnosisRepository.mk "public/diagnosticos.json" in
  let w := persist this [JObj {[ "id" := JNum 1; "nome" := JStr "A" ]}]
             (blank 1000) in
  let created :=
    exec (DiagnosisRepository.create this (JObj {[ "nome" := JStr "B" ]})) w in
  let deleted :=
    exec (DiagnosisRepository.delete this (JStr (pretty (clock w)))) created in
  length (persisted this created) = S (length (persisted this w))
  /\ persisted this deleted = persisted this w.
Proof.
  cbn zeta.
  apply (create_then_delete_restores
           (DiagnosisRepository.mk "public/diagnosticos.json")
           (JObj {[ "nome" := JStr "B" ]})).
  - reflexivity.
  - reflexivity.
  - reflexivity.
  - reflexivity.
  - rewrite persisted_persist. repeat constructor.
Defined.

(** ** The base URL *)

Lemma length_append_slash (s : string) :
  String.length (s +:+ "/") = S (String.length s).
Proof.
  induction s as [|c s IH]; [reflexivity|].
  change (S (String.length (s +:+ "/")) = S (S (String.length s))).
  rewrite IH. reflexivity.
Qed.

Lemma append_empty (s : string) : s +:+ "" = s.
Proof.
  induction s as [|c s IH]; [reflexivity|].
  change (String c (s +:+ "") = String c s). rewrite IH. reflexivity.
Qed.

Lemma substring_none (s : string) : substring 0 0 s = "".
Proof. destruct s; reflexivity. Qed.

Lemma substring_whole_prefix (s t : string) :
  substring 0 (String.length s) (s +:+ t) = s.
Proof.
  induction s as [|c s IH]; [apply substring_none|].
  change (String c (substring 0 (String.length s) (s +:+ t)) = String c s).
  rewrite IH. reflexivity.
Qed.

Lemma substring_whole (t : string) : substring 0 (String.length t) t = t.
Proof.
  pose proof (substring_whole_prefix t "") as Ht.
  rewrite append_empty in Ht. exact Ht.
Qed.

Lemma substring_suffix (s t : string) :
  substring (String.length s) (String.length t) (s +:+ t) = t.
Proof.
  induction s as [|c s IH]; [apply substring_whole | exact IH].
Qed.

Lemma substring_split (m : nat) (s : string) :
  (m <= String.length s)%nat ->
  s = substring 0 m s +:+ substring m (String.length s - m) s.
Proof.
  revert s. induction m as [|m IH]; intros s Hm.
  - rewrite Nat.sub_0_r, substring_none, substring_whole. reflexivity.
  - destruct s as [|c s]; [cbn in Hm; lia|].
    change (String c s
            = String c (substring 0 m s
                        +:+ substring m (String.length s - m) s)).
    f_equal. apply IH. cbn in Hm. lia.
Qed.

Lemma slice_drop_last (s : string) :
  slice s 0 (-1) = substring 0 (String.length s - 1) s.
Proof.
  unfold slice. cbn [Z.ltb Z.compare].
  f_equal; lia.
Qed.

Lemma base_url_drops_one_slash_aux (s : string) :
  PredictionClient.baseUrl (PredictionClient.constructor (s +:+ "/")) = s.
Proof.
  unfold PredictionClient.constructor. cbn [PredictionClient.baseUrl].
  assert (Hends : endsWith (s +:+ "/") "/" = true).
  { unfold endsWith. rewrite length_append_slash. cbn [String.length].
    replace (S (String.length s) - 1)%nat with (String.length s) by lia.
    pose proof (substring_suffix s "/") as Hlast.
    cbn [String.length] in Hlast. rewrite Hlast. reflexivity. }
  rewrite Hends, slice_drop_last, length_append_slash.
  replace (S (String.length s) - 1)%nat with (String.length s) by lia.
  apply substring_whole_prefix.
Qed.

(** X11: the constructor removes one trailing slash and nothing else: built
    from [s + "/"] the base URL is [s], even when [s] itself ends in a
    slash, and in every case the argument is the base URL or the base URL
    followed by one slash. *)
Theorem base_url_drops_one_slash (s : string) :
  PredictionClient.baseUrl (PredictionClient.constructor (s +:+ "/")) = s
  /\ (PredictionClient.baseUrl (PredictionClient.constructor s) = s
      \/ PredictionClient.baseUrl (PredictionClient.constructor s) +:+ "/" = s).
Proof.
  split; [apply base_url_drops_one_slash_aux|].
  unfold PredictionClient.constructor. cbn [PredictionClient.baseUrl].
  destruct (endsWith s "/") eqn:Hends; [right | left; reflexivity].
  unfold endsWith in Hends. cbn [String.length] in Hends.
  apply andb_true_iff in Hends as [Hlen Hlast].
  apply Nat.leb_le in Hlen. apply String.eqb_eq in Hlast.
  rewrite slice_drop_last.
  rewrite (substring_split (String.length s - 1) s) at 3 by lia.
  replace (String.length s - (String.length s - 1))%nat with 1%nat by lia.
  rewrite Hlast. reflexivity.
Qed.

(** ** [diagnose] and [retrain]: what comes back *)

(** X12: for a payload that passes the check, [diagnose] issues one request to
    [{base}/predict] carrying the payload with timeout 8000 and, when the
    remote end answers, returns the body of the answer as it is. *)
Theorem diagnose_passes_through
  (this : PredictionClient.t) (payload : value) (w : net) (res : response) :
  let req := mkRequest (PredictionClient.baseUrl this +:+ "/predict")
                       payload 8000 in
  truthy payload = true ->
  typeof payload = "object" ->
  remote w req = Resolves res ->
  PredictionClient.diagnose this payload w
  = (Normal (data res), mkNet (remote w) (sent w ++ [req])).
Proof.
  cbn zeta. intros Htruthy Hkind Hanswer.
  rewrite diagnose_forwarded by (rewrite Htruthy, Hkind; reflexivity).
  cbn zeta. rewrite Hanswer. reflexivity.
Qed.

Lemma diagnose_passes_through_witness :
  let this := PredictionClient.constructor "http://localhost:5000" in
  let payload := Json (JObj {[ "x" := JNum 10 ]}) in
  let w := mkNet (fun _ => Resolves (mkResponse (JObj {[ "ok" := JBool true ]}))) [] in
  PredictionClient.diagnose this payload w
  = (Normal (JObj {[ "ok" := JBool true ]}),
     mkNet (remote w) [mkRequest "http://localhost:5000/predict" payload 8000]).
Proof.
  cbn zeta.
  apply (diagnose_passes_through
           (PredictionClient.constructor "http://localhost:5000")
           (Json (JObj {[ "x" := JNum 10 ]}))
           (mkNet (fun _ => Resolves (mkResponse (JObj {[ "ok" := JBool true ]}))) [])
           (mkResponse (JObj {[ "ok" := JBool true ]})));
    reflexivity.
Defined.

(** X13: when the request of [diagnose] is rejected, [diagnose] throws an
    error whose message is the fixed prefix followed by the message of
    the cause; the request has been issued once and is not repeated. *)
Theorem diagnose_wraps_failure
  (this : PredictionClient.t) (payload : value) (w : net) (err : error) :
  let req := mkRequest (PredictionClient.baseUrl this +:+ "/predict")
                       payload 8000 in
  truthy payload = true ->
  typeof payload = "object" ->
  remote w req = Rejects err ->
  PredictionClient.diagnose this payload w
  = (Throw (Error ("Falha ao chamar serviço de predição: " +:+ message err)),
     mkNet (remote w) (sent w ++ [req])).
Proof.
  cbn zeta. intros Htruthy Hkind Hanswer.
  rewrite diagnose_forwarded by (rewrite Htruthy, Hkind; reflexivity).
  cbn zeta. rewrite Hanswer. reflexivity.
Qed.

Lemma diagnose_wraps_failure_witness :
  let this := PredictionClient.constructor "http://localhost:5000" in
  let payload := Json (JArr []) in
  let w := mkNet (fun _ => Rejects (Error "timeout of 8000ms exceeded")) [] in
  PredictionClient.diagnose this payload w
  = (Throw (Error "Falha ao chamar serviço de predição: timeout of 8000ms exceeded"),
     mkNet (remote w) [mkRequest "http://localhost:5000/predict" payload 8000]).
Proof.
  cbn zeta.
  apply (diagnose_wraps_failure
           (PredictionClient.constructor "http://localhost:5000")
           (Json (JArr []))
           (mkNet (fun _ => Rejects (Error "timeout of 8000ms exceeded")) [])
           (Error "timeout of 8000ms exceeded"));
    reflexivity.
Defined.

(** X14: when the remote end answers the request of [retrain], [retrain]
    returns the body of the answer as it is, after that one request. *)
Theorem retrain_passes_through
  (this : PredictionClient.t) (w : net) (res : response) :
  let req := mkRequest (PredictionClient.baseUrl this +:+ "/train")
                       (Json (JObj ∅)) 20000 in
  remote w req = Resolves res ->
  PredictionClient.retrain this w
  = (Normal (data res), mkNet (remote w) (sent w ++ [req])).
Proof.
  cbn zeta. intros Hanswer. rewrite retrain_eq. cbn zeta.
  rewrite Hanswer. reflexivity.
Qed.

Lemma retrain_passes_through_witness :
  let this := PredictionClient.constructor "http://localhost:5000" in
  let w := mkNet (fun _ => Resolves (mkResponse (JObj {[ "retrained" := JBool true ]}))) [] in
  PredictionClient.retrain this w
  = (Normal (JObj {[ "retrained" := JBool true ]}),
     mkNet (remote w) [mkRequest "http://localhost:5000/train" (Json (JObj ∅)) 20000]).
Proof.
  cbn zeta.
  apply (retrain_passes_through
           (PredictionClient.constructor "http://localhost:5000")
           (mkNet (fun _ => Resolves (mkResponse (JObj {[ "retrained" := JBool true ]}))) [])
           (mkResponse (JObj {[ "retrained" := JBool true ]})));
    reflexivity.
Defined.

(** ** The routes *)

Lemma body_or_empty_truthy (b : value) : truthy (Json (body_or_empty b)) = true.
Proof.
  destruct b as [| |j]; try reflexivity.
  unfold body_or_empty. destruct (truthy (Json j)) eqn:Hj; [exact Hj | reflexivity].
Qed.

Lemma body_or_empty_falsy (b : value) :
  truthy b = false -> body_or_empty b = JObj ∅.
Proof.
  destruct b as [| |j]; try reflexivity.
  unfold body_or_empty. intros ->. reflexivity.
Qed.

Section RouteFacts.

Variable this : AppServer.t.

Lemma put_diagnosticos_eq (req : http_request) (w : world) :
  AppServer.put_diagnosticos this req w
  = if existsb is_null (persisted (AppServer.repo this) w)
    then (Normal (res_status_json 500 (error_body null_read)), w)
    else (Normal (res_json ok_body),
          exec (DiagnosisRepository.update (AppServer.repo this)
                  (JStr (req_params_id req)) (body_or_empty (req_body req))) w).
Proof.
  unfold AppServer.put_diagnosticos, try_catch, bind, exec.
  rewrite update_eq.
  destruct (existsb is_null (persisted (AppServer.repo this) w)); reflexivity.
Qed.

Lemma delete_diagnosticos_eq (req : http_request) (w : world) :
  AppServer.delete_diagnosticos this req w
  = if existsb is_null (persisted (AppServer.repo this) w)
    then (Normal (res_status_json 500 (error_body null_read)), w)
    else (Normal (res_json ok_body),
          exec (DiagnosisRepository.delete (AppServer.repo this)
                  (JStr (req_params_id req))) w).
Proof.
  unfold AppServer.delete_diagnosticos, try_catch, bind, exec.
  rewrite delete_eq.
  destruct (existsb is_null (persisted (AppServer.repo this) w)); reflexivity.
Qed.

Lemma post_diagnose_eq (req : http_request) (w : net) :
  let payload := Json (body_or_empty (req_body req)) in
  AppServer.post_diagnose this req w
  = match PredictionClient.diagnose (AppServer.predictionClient this) payload w with
    | (Normal result, w') => (Normal (res_json result), w')
    | (Throw err, w') => (Normal (res_status_json 500 (error_body err)), w')
    end.
Proof.
  cbn zeta. unfold AppServer.post_diagnose, try_catch, bind.
  destruct (PredictionClient.diagnose _ _ w) as [[result|err] w']; reflexivity.
Qed.

End RouteFacts.

(** X15: [GET /diagnosticos] answers 200 with an array in every state of the
    storage, the unreadable and corrupt ones included, and leaves the
    world as it was. *)
Theorem get_diagnosticos_always_lists
  (this : AppServer.t) (req : http_request) (w : world) :
  exists records : list json,
    AppServer.get_diagnosticos this req w
    = (Normal (mkHttpResponse 200 (JArr records)), w)
    /\ records = persisted (AppServer.repo this) w.
Proof.
  exists (persisted (AppServer.repo this) w). split; [|reflexivity].
  unfold AppServer.get_diagnosticos, DiagnosisRepository.list, bind.
  rewrite readAll_persisted. reflexivity.
Qed.

(** X16: [PUT /diagnosticos/:id] and [DELETE /diagnosticos/:id] on a
    collection of records answer 200 with [{ ok: true }] for every
    identifier and body, whether a record matched or not. *)
Theorem put_and_delete_answer_ok
  (this : AppServer.t) (req : http_request) (w : world) :
  existsb is_null (persisted (AppServer.repo this) w) = false ->
  fst (AppServer.put_diagnosticos this req w)
  = Normal (mkHttpResponse 200 (JObj {[ "ok" := JBool true ]}))
  /\ fst (AppServer.delete_diagnosticos this req w)
     = Normal (mkHttpResponse 200 (JObj {[ "ok" := JBool true ]})).
Proof.
  intros Hnull.
  rewrite put_diagnosticos_eq, delete_diagnosticos_eq, Hnull.
  split; reflexivity.
Qed.

Lemma put_and_delete_answer_ok_witness :
  let this := AppServer.mk (Int 3000) "http://localhost:5000"
                (DiagnosisRepository.mk "/srv/public/diagnosticos.json")
                (PredictionClient.mk "http://localhost:5000") in
  let w := persist (AppServer.repo this)
             [JObj {[ "id" := JNum 1; "nome" := JStr "A" ]}] (blank 1000) in
  let req := mkHttpRequest (Json (JObj {[ "nome" := JStr "B" ]})) "999" in
  fst (AppServer.put_diagnosticos this req w)
  = Normal (mkHttpResponse 200 (JObj {[ "ok" := JBool true ]}))
  /\ fst (AppServer.delete_diagnosticos this req w)
     = Normal (mkHttpResponse 200 (JObj {[ "ok" := JBool true ]})).
Proof.
  cbn zeta.
  apply (put_and_delete_answer_ok
           (AppServer.mk (Int 3000) "http://localhost:5000"
              (DiagnosisRepository.mk "/srv/public/diagnosticos.json")
              (PredictionClient.mk "http://localhost:5000"))).
  reflexivity.
Defined.

(** X17: when the stored array has a null element, [PUT] and [DELETE] answer
    500 with the message of the TypeError under [error], and nothing is
    written. *)
Theorem put_and_delete_fail_on_null
  (this : AppServer.t) (req : http_request) (w : world) :
  existsb is_null (persisted (AppServer.repo this) w) = true ->
  let failure :=
    mkHttpResponse 500
      (JObj {[ "error" := JStr "Cannot read properties of null (reading 'id')" ]}) in
  AppServer.put_diagnosticos this req w = (Normal failure, w)
  /\ AppServer.delete_diagnosticos this req w = (Normal failure, w).
Proof.
  intros Hnull. cbn zeta.
  rewrite put_diagnosticos_eq, delete_diagnosticos_eq, Hnull.
  split; reflexivity.
Qed.

Lemma put_and_delete_fail_on_null_witness :
  let this := AppServer.mk (Int 3000) "http://localhost:5000"
                (DiagnosisRepository.mk "/srv/public/diagnosticos.json")
                (PredictionClient.mk "http://localhost:5000") in
  let w := persist (AppServer.repo this) [JNull] (blank 1000) in
  let req := mkHttpRequest (Json (JObj ∅)) "1" in
  let failure :=
    mkHttpResponse 500
      (JObj {[ "error" := JStr "Cannot read properties of null (reading 'id')" ]}) in
  AppServer.put_diagnosticos this req w = (Normal failure, w)
  /\ AppServer.delete_diagnosticos this req w = (Normal failure, w).
Proof.
  cbn zeta.
  apply (put_and_delete_fail_on_null
           (AppServer.mk (Int 3000) "http://localhost:5000"
              (DiagnosisRepository.mk "/srv/public/diagnosticos.json")
              (PredictionClient.mk "http://localhost:5000"))).
  reflexivity.
Defined.

(** X18: [POST /diagnosticos] answers 200 with the created record; where
    the file can be read back, a [GET /diagnosticos] that follows lists
    the earlier records and then that record; without a body the record
    holds the identifier alone. *)
Theorem post_diagnosticos_then_get
  (this : AppServer.t) (req req' : http_request) (w : world) :
  exists (novo : json) (w' : world),
    AppServer.post_diagnosticos this req w
    = (Normal (mkHttpResponse 200 novo), w')
    /\ (reads_back (AppServer.repo this) w = true ->
        AppServer.get_diagnosticos this req' w'
        = (Normal (mkHttpResponse 200
                     (JArr (persisted (AppServer.repo this) w ++ [novo]))), w'))
    /\ (truthy (req_body req) = false ->
        novo = JObj {[ "id" := JNum (clock w) ]}).
Proof.
  eexists. eexists.
  unfold AppServer.post_diagnosticos, try_catch, bind.
  rewrite create_eq. cbn zeta. cbn iota beta.
  split; [reflexivity|]. split.
  - intros Hreads.
    unfold AppServer.get_diagnosticos, DiagnosisRepository.list, bind.
    rewrite readAll_persisted, persisted_persist, Hreads. reflexivity.
  - intros Hfalsy. rewrite (body_or_empty_falsy _ Hfalsy).
    unfold spread. cbn [own_props]. rewrite (left_id_L ∅ (∪)). reflexivity.
Qed.

Lemma post_diagnosticos_then_get_witness :
  let this := AppServer.mk (Int 3000) "http://localhost:5000"
                (DiagnosisRepository.mk "/srv/public/diagnosticos.json")
                (PredictionClient.mk "http://localhost:5000") in
  let req := mkHttpRequest Undefined "" in
  exists w' : world,
    AppServer.post_diagnosticos this req (blank 1000)
    = (Normal (mkHttpResponse 200 (JObj {[ "id" := JNum 1000 ]})), w')
    /\ AppServer.get_diagnosticos this req w'
       = (Normal (mkHttpResponse 200 (JArr [JObj {[ "id" := JNum 1000 ]}])), w').
Proof.
  cbn zeta.
  destruct (post_diagnosticos_then_get
              (AppServer.mk (Int 3000) "http://localhost:5000"
                 (DiagnosisRepository.mk "/srv/public/diagnosticos.json")
                 (PredictionClient.mk "http://localhost:5000"))
              (mkHttpRequest Undefined "") (mkHttpRequest Undefined "")
              (blank 1000))
    as (novo & w' & Hpost & Hget & Hnovo).
  exists w'. rewrite Hpost, (Hget eq_refl), (Hnovo eq_refl).
  split; reflexivity.
Defined.

(** X19: [POST /diagnose] without a body (or with a falsy one) forwards the
    empty object: the request goes out to [{base}/predict] with body
    [{}], and the handler answers with what came back. *)
Theorem post_diagnose_defaults_body
  (this : AppServer.t) (req : http_request) (w : net) :
  truthy (req_body req) = false ->
  let out := mkRequest
               (PredictionClient.baseUrl (AppServer.predictionClient this)
                  +:+ "/predict")
               (Json (JObj ∅)) 8000 in
  sent (exec (AppServer.post_diagnose this req) w) = sent w ++ [out]
  /\ fst (AppServer.post_diagnose this req w)
     = Normal (match remote w out with
               | Resolves res => mkHttpResponse 200 (data res)
               | Rejects err =>
                   mkHttpResponse 500
                     (JObj {[ "error" :=
                                JStr ("Falha ao chamar serviço de predição: "
                                        +:+ message err) ]})
               end).
Proof.
  intros Hfalsy. cbn zeta. unfold exec.
  rewrite post_diagnose_eq. cbn zeta.
  rewrite (body_or_empty_falsy _ Hfalsy).
  rewrite diagnose_forwarded by reflexivity. cbn zeta.
  destruct (remote w _) as [res|err]; split; reflexivity.
Qed.

Lemma post_diagnose_defaults_body_witness :
  let this := AppServer.mk (Int 3000) "http://localhost:5000"
                (DiagnosisRepository.mk "/srv/public/diagnosticos.json")
                (PredictionClient.constructor "http://localhost:5000") in
  let w := mkNet (fun _ => Rejects (Error "connect ECONNREFUSED")) [] in
  let req := mkHttpRequest Undefined "" in
  sent (exec (AppServer.post_diagnose this req) w)
  = [mkRequest "http://localhost:5000/predict" (Json (JObj ∅)) 8000]
  /\ fst (AppServer.post_diagnose this req w)
     = Normal (mkHttpResponse 500
                 (JObj {[ "error" :=
                   JStr "Falha ao chamar serviço de predição: connect ECONNREFUSED" ]})).
Proof.
  cbn zeta.
  apply (post_diagnose_defaults_body
           (AppServer.mk (Int 3000) "http://localhost:5000"
              (DiagnosisRepository.mk "/srv/public/diagnosticos.json")
              (PredictionClient.constructor "http://localhost:5000"))
           (mkHttpRequest Undefined "")
           (mkNet (fun _ => Rejects (Error "connect ECONNREFUSED")) [])).
  reflexivity.
Defined.

(** X21: [POST /retrain] issues the one request of [retrain] and answers 200
    with the body that came back, or 500 with the message
    ["Falha ao re-treinar modelo: " + cause] under [error]; no exception
    leaves the handler. *)
Theorem post_retrain_answers
  (this : AppServer.t) (req : http_request) (w : net) :
  let out := mkRequest
               (PredictionClient.baseUrl (AppServer.predictionClient this)
                  +:+ "/train")
               (Json (JObj ∅)) 20000 in
  AppServer.post_retrain this req w
  = (Normal (match remote w out with
             | Resolves res => mkHttpResponse 200 (data res)
             | Rejects err =>
                 mkHttpResponse 500
                   (JObj {[ "error" :=
                              JStr ("Falha ao re-treinar modelo: "
                                      +:+ message err) ]})
             end),
     mkNet (remote w) (sent w ++ [out])).
Proof.
  cbn zeta. unfold AppServer.post_retrain, try_catch, bind.
  rewrite retrain_eq. cbn zeta.
  destruct (remote w _) as [res|err]; reflexivity.
Qed.

(** ** Configuration *)

Lemma repository_constructor_returns (path : string) (w : world) :
  fst (DiagnosisRepository.constructor path w) = Normal (DiagnosisRepository.mk path).
Proof.
  unfold DiagnosisRepository.constructor, DiagnosisRepository._ensureStorage,
    bind, fs_existsSync, fs_writeFileSync, ret.
  cbn [DiagnosisRepository.filePath].
  destruct (negb (bool_decide (is_Some (files w !! path)))); reflexivity.
Qed.

Lemma main_eq (dirname : string) (env : environment) (w : world) :
  fst (AppServer.main dirname env w)
  = Normal
      (AppServer.mk
         (AppServer.port_or_default (AppServer.config_port (AppServer.config_of_env env)))
         (AppServer.url_or_default
            (AppServer.config_predictionBaseUrl (AppServer.config_of_env env)))
         (DiagnosisRepository.mk (dirname +:+ "/public/diagnosticos.json"))
         (PredictionClient.constructor
            (AppServer.url_or_default
               (AppServer.config_predictionBaseUrl (AppServer.config_of_env env))))).
Proof.
  unfold AppServer.main, AppServer.constructor, bind.
  pose proof (repository_constructor_returns
                (dirname +:+ "/public/diagnosticos.json") w) as Hrepo.
  destruct (DiagnosisRepository.constructor _ w) as [outcome w'].
  cbn [fst] in Hrepo. subst outcome. reflexivity.
Qed.

(** X22: the port the server is built with is never 0 nor NaN: it is 3000
    when [PORT] is unset, empty, or has no integer for [parseInt] to
    read, or reads as 0, and the integer read otherwise, as for the
    decimal numeral of an integer below [2^53]. *)
Theorem main_port (dirname : string) (env : environment) (w : world) :
  exists server : AppServer.t,
    fst (AppServer.main dirname env w) = Normal server
    /\ AppServer.port server <> Int 0
    /\ AppServer.port server <> NaN
    /\ (PORT env = None \/ PORT env = Some "" ->
        AppServer.port server = Int 3000)
    /\ (forall p : string,
          PORT env = Some p ->
          parseInt (JStr p) = NaN \/ parseInt (JStr p) = Int 0 ->
          AppServer.port server = Int 3000)
    /\ (forall z : Z,
          z <> 0 -> Z.abs z < 9007199254740992 ->
          PORT env = Some (pretty z) -> AppServer.port server = Int z).
Proof.
  eexists. split; [apply main_eq|]. cbn [AppServer.port].
  unfold AppServer.config_of_env. cbn [AppServer.config_port].
  split; [|split; [|split; [|split]]].
  - unfold AppServer.port_or_default.
    destruct (match PORT env with Some _ => _ | None => _ end) as [|z|negative];
      [discriminate| |discriminate].
    destruct (Z.eqb_spec z 0); [discriminate | congruence].
  - unfold AppServer.port_or_default.
    destruct (match PORT env with Some _ => _ | None => _ end) as [|z|negative];
      [discriminate| |discriminate].
    destruct (Z.eqb_spec z 0); discriminate.
  - intros [-> | ->]; reflexivity.
  - intros p -> Hparse. cbn [truthy].
    destruct (negb (String.eqb p "")); [|reflexivity].
    destruct Hparse as [-> | ->]; reflexivity.
  - intros z Hz Hsafe ->. cbn [truthy].
    destruct (String.eqb_spec (pretty z) "") as [Hempty | _]; cbn [negb].
    + pose proof (parseInt_decimal z Hsafe) as Hparse.
      rewrite Hempty in Hparse. discriminate Hparse.
    + rewrite (parseInt_decimal z Hsafe). unfold AppServer.port_or_default.
      destruct (Z.eqb_spec z 0); [contradiction | reflexivity].
Qed.

Lemma main_port_witness :
  exists server : AppServer.t,
    fst (AppServer.main "/srv" (mkEnvironment (Some (pretty 8080)) None) (blank 0))
    = Normal server
    /\ AppServer.port server = Int 8080.
Proof.
  destruct (main_port "/srv" (mkEnvironment (Some (pretty 8080)) None) (blank 0))
    as (server & Hmain & _ & _ & _ & _ & Hport).
  exists server. split; [exact Hmain|].
  apply Hport; [discriminate | reflexivity | reflexivity].
Defined.


